(** * The Gemini proxy backend: upstream client and request handler

    A shallow embedding of [api/gemini_client.py] and [api/handlers.py].
    Python values decoded from JSON are the inductive type [Json];
    exceptions are values of [exn] carried by the [Result] monad, so a
    [try ... except] is a [match] on the result of the protected block. *)

From Stdlib Require Import ZArith String List PrimFloat Bool Lia.
From stdpp Require Import gmap strings.
Import ListNotations.

Open Scope string_scope.
Open Scope Z_scope.

(** ** Python values *)

(** What [json.loads] can return: [None], [bool], [int], [float], [str],
    [list] and [dict] with [str] keys.  A dict is kept as its items, in
    order; the keys of a decoded dict are pairwise distinct. *)
#[warnings="-register-all"]
Inductive Json : Type :=
| JNull
| JBool (b : bool)
| JInt (n : Z)
| JFloat (x : float)
| JStr (s : string)
| JList (items : list Json)
| JDict (fields : list (string * Json)).

(** [type(v).__name__] *)
Definition type_name (v : Json) : string :=
  match v with
  | JNull => "NoneType"
  | JBool _ => "bool"
  | JInt _ => "int"
  | JFloat _ => "float"
  | JStr _ => "str"
  | JList _ => "list"
  | JDict _ => "dict"
  end.

(** [bool(v)]: what [if not v] tests. *)
Definition truthy (v : Json) : bool :=
  match v with
  | JNull => false
  | JBool b => b
  | JInt n => negb (n =? 0)
  | JFloat x => negb (PrimFloat.eqb x 0%float)
  | JStr s => negb (String.eqb s "")
  | JList items => match items with [] => false | _ :: _ => true end
  | JDict fields => match fields with [] => false | _ :: _ => true end
  end.

(** ** Exceptions *)

(** The exception classes the two modules raise, catch or let through.
    [GeminiTimeoutError] is a subclass of [GeminiError] whose
    [status_code] is always [None]; [KeyError] carries the text [str]
    gives it. Every other [Exception] (transport errors of httpx, JSON
    decoding errors, ...) is an [OtherException] with its text. *)
Inductive exn : Type :=
| TimeoutException (message : string)
| GeminiError (message : string) (status_code : option Z)
| GeminiTimeoutError (message : string)
| KeyError (key : string)
| IndexError (message : string)
| TypeError (message : string)
| AttributeError (message : string)
| OtherException (message : string).

(** [str(e)] *)
Definition exn_str (e : exn) : string :=
  match e with
  | TimeoutException m => m
  | GeminiError m _ => m
  | GeminiTimeoutError m => m
  | KeyError k => k
  | IndexError m => m
  | TypeError m => m
  | AttributeError m => m
  | OtherException m => m
  end.

(** [isinstance(e, GeminiError)] *)
Definition is_GeminiError (e : exn) : bool :=
  match e with
  | GeminiError _ _ | GeminiTimeoutError _ => true
  | _ => false
  end.

(** A computation that returns a value or raises. *)
Inductive Result (A : Type) : Type :=
| Return (a : A)
| Raise (e : exn).
Arguments Return {A} a.
Arguments Raise {A} e.

Definition bind {A B : Type} (m : Result A) (k : A -> Result B) : Result B :=
  match m with
  | Return a => k a
  | Raise e => Raise e
  end.

Notation "x <- m ;; k" := (bind m (fun x => k))
  (at level 100, m at next level, right associativity).

(** ** Operations on decoded values *)

Fixpoint dict_lookup (key : string) (fields : list (string * Json)) : option Json :=
  match fields with
  | [] => None
  | (k, v) :: rest => if String.eqb k key then Some v else dict_lookup key rest
  end.

(** [d.get(key, default)] on a dict *)
Definition dict_get (fields : list (string * Json)) (key : string) (default : Json) : Json :=
  match dict_lookup key fields with
  | Some v => v
  | None => default
  end.

(** [v.get(key, default)] on any value: only a dict has the method. *)
Definition py_get (v : Json) (key : string) (default : Json) : Result Json :=
  match v with
  | JDict fields => Return (dict_get fields key default)
  | _ => Raise (AttributeError ("'" ++ type_name v ++ "' object has no attribute 'get'"))
  end.

(** [v[0]]: the first item of a list, the first character of a string;
    a decoded dict has no key [0]; the other types are not subscriptable. *)
Definition py_first (v : Json) : Result Json :=
  match v with
  | JList (x :: _) => Return x
  | JList [] => Raise (IndexError "list index out of range")
  | JStr (String c _) => Return (JStr (String c EmptyString))
  | JStr EmptyString => Raise (IndexError "string index out of range")
  | JDict _ => Raise (KeyError "0")
  | _ => Raise (TypeError ("'" ++ type_name v ++ "' object is not subscriptable"))
  end.

(** What the Python runtime and pydantic do with values the upstream
    contract does not foresee.  [str_of v] is [str(v)] for a value that
    is not a string; [coerce_str] and [coerce_int] are pydantic's
    validation of a [str] field given a non-string and of an
    [Optional[int]] field given neither [None] nor an [int] ([None]: a
    [ValidationError]). *)
Class PyRuntime : Type := {
  str_of : Json -> string;
  coerce_str : Json -> option string;
  coerce_int : Json -> option Z
}.

(** [f"{v}"] *)
Definition format `{PyRuntime} (v : Json) : string :=
  match v with
  | JStr s => s
  | _ => str_of v
  end.

(** ** [api/gemini_client.py] *)

Definition GEMINI_BASE_URL : string := "https://generativelanguage.googleapis.com/v1beta".
Definition GEMINI_MODEL : string := "gemini-2.5-flash".
Definition GEMINI_TIMEOUT : Z := 20.

Record GeminiClient : Type := {
  api_key : string;
  base_url : string;
  model : string;
  timeout : Z
}.

(** [GeminiClient.__init__] *)
Definition GeminiClient_init (key : string) : GeminiClient :=
  {| api_key := key; base_url := GEMINI_BASE_URL; model := GEMINI_MODEL;
     timeout := GEMINI_TIMEOUT |}.

(** The arguments of [client.post] together with the client's timeout. *)
Record HttpRequest : Type := {
  req_timeout : Z;
  url : string;
  json_payload : Json;
  headers : list (string * string);
  params : list (string * string)
}.

(** An [httpx.Response]: [json] is the outcome of [response.json()]. *)
Record Response : Type := {
  status_code : Z;
  text : string;
  json : Result Json
}.

(** The upstream, as the client sees it: a call that answers or raises. *)
Definition Transport : Type := HttpRequest -> Result Response.

(** The dictionary [generate_response] returns; an absent token count is
    [None], here [JNull]. *)
Record GenerationResult : Type := {
  reply : Json;
  result_model : string;
  prompt_tokens : Json;
  completion_tokens : Json
}.

(** Lines 146-161: the block protected by the [try] of [_extract_reply]. *)
Definition extract_reply_try (data : Json) : Result Json :=
  candidates <- py_get data "candidates" (JList []) ;;
  if negb (truthy candidates) then Raise (GeminiError "No candidates in response" None)
  else
    candidate <- py_first candidates ;;
    content <- py_get candidate "content" (JDict []) ;;
    parts <- py_get content "parts" (JList []) ;;
    if negb (truthy parts) then Raise (GeminiError "No parts in response content" None)
    else
      part <- py_first parts ;;
      reply <- py_get part "text" (JStr "") ;;
      if negb (truthy reply) then Raise (GeminiError "Empty reply from Gemini" None)
      else Return reply.

(** [GeminiClient._extract_reply] *)
Definition _extract_reply (data : Json) : Result Json :=
  match extract_reply_try data with
  | Raise (KeyError _ as e) | Raise (IndexError _ as e) | Raise (TypeError _ as e) =>
      Raise (GeminiError ("Invalid response format: " ++ exn_str e) None)
  | r => r
  end.

(** Lines 98-99: the structured reading of an error body. *)
Definition structured_error_message (response : Response) : Result Json :=
  error_data <- json response ;;
  error <- py_get error_data "error" (JDict []) ;;
  py_get error "message" (JStr "Unknown error").

(** Lines 96-101: the detail of an upstream error response. The bare
    [except:] catches whatever the structured reading raises. *)
Definition error_detail (response : Response) : Json :=
  match structured_error_message response with
  | Return detail => detail
  | Raise _ => JStr (substring 0 200 (text response))
  end.

(** The request [generate_response] sends. [0.7] and [0.9] are the
    binary64 values Python reads these literals as. *)
Definition build_request (self : GeminiClient) (prompt : string) (max_tokens : option Z)
  : HttpRequest :=
  {| req_timeout := timeout self;
     url := base_url self ++ "/models/" ++ model self ++ ":generateContent";
     json_payload :=
       JDict [
         ("contents", JList [JDict [("parts", JList [JDict [("text", JStr prompt)]])]]);
         ("generationConfig",
            JDict [
              ("maxOutputTokens", match max_tokens with Some n => JInt n | None => JNull end);
              ("temperature", JFloat 0x1.6666666666666p-1%float);
              ("topP", JFloat 0x1.ccccccccccccdp-1%float);
              ("topK", JInt 40)])];
     headers := [("Content-Type", "application/json")];
     params := [("key", api_key self)] |}.

(** Lines 86-123: the block protected by the [try] of [generate_response]. *)
Definition generate_response_try `{PyRuntime} (self : GeminiClient) (post : Transport)
    (prompt : string) (max_tokens : option Z) : Result GenerationResult :=
  response <- post (build_request self prompt max_tokens) ;;
  if negb (status_code response =? 200) then
    Raise (GeminiError ("Gemini API error: " ++ format (error_detail response))
                       (Some (status_code response)))
  else
    data <- json response ;;
    reply <- _extract_reply data ;;
    usage_metadata <- py_get data "usageMetadata" (JDict []) ;;
    prompt_tokens <- py_get usage_metadata "promptTokenCount" JNull ;;
    completion_tokens <- py_get usage_metadata "candidatesTokenCount" JNull ;;
    Return {| reply := reply; result_model := model self;
              prompt_tokens := prompt_tokens; completion_tokens := completion_tokens |}.

(** [GeminiClient.generate_response] *)
Definition generate_response `{PyRuntime} (self : GeminiClient) (post : Transport)
    (prompt : string) (max_tokens : option Z) : Result GenerationResult :=
  match generate_response_try self post prompt max_tokens with
  | Return result => Return result
  | Raise (TimeoutException _) => Raise (GeminiTimeoutError "Request to Gemini API timed out")
  | Raise (GeminiError m s) => Raise (GeminiError m s)
  | Raise (GeminiTimeoutError m) => Raise (GeminiTimeoutError m)
  | Raise e => Raise (GeminiError ("Unexpected error: " ++ exn_str e) None)
  end.

(** ** [api/handlers.py] *)

Record AIRequest : Type := {
  prompt : string;
  max_tokens : option Z
}.

(** The [Field] constraints of [AIRequest]: a prompt of 1 to 10000
    characters, and [max_tokens], when given, between 1 and 4096. *)
Definition valid_request (r : AIRequest) : bool :=
  (1 <=? Z.of_nat (String.length (prompt r))) &&
  (Z.of_nat (String.length (prompt r)) <=? 10000) &&
  match max_tokens r with
  | Some n => (1 <=? n) && (n <=? 4096)
  | None => true
  end.

Record UsageInfo : Type := {
  usage_prompt_tokens : option Z;
  usage_completion_tokens : option Z
}.

Record AIResponse : Type := {
  response_id : string;
  response_reply : string;
  response_model : string;
  usage : UsageInfo
}.

(** What the route gives back: the response model, an [HTTPException],
    or the limiter's refusal. *)
Inductive Outward : Type :=
| Ok (response : AIResponse)
| HTTPException (status_code : Z) (detail : string)
| RateLimitExceeded.

Definition outward_status (o : Outward) : Z :=
  match o with
  | Ok _ => 200
  | HTTPException status_code _ => status_code
  | RateLimitExceeded => 429
  end.

Definition outward_detail (o : Outward) : string :=
  match o with
  | HTTPException _ detail => detail
  | _ => ""
  end.

(** pydantic's validation of a [str] field *)
Definition validate_str `{PyRuntime} (v : Json) : option string :=
  match v with
  | JStr s => Some s
  | _ => coerce_str v
  end.

(** pydantic's validation of an [Optional[int]] field *)
Definition validate_optional_int `{PyRuntime} (v : Json) : option (option Z) :=
  match v with
  | JNull => Some None
  | JInt n => Some (Some n)
  | _ => option_map Some (coerce_int v)
  end.

(** [ai_reply], the body of the route. [fresh_id] is [str(uuid.uuid4())]. *)
Definition ai_reply `{PyRuntime} (fresh_id : string) (ai_request : AIRequest)
    (client : GeminiClient) (post : Transport) : Outward :=
  match generate_response client post (prompt ai_request) (max_tokens ai_request) with
  | Return result =>
      match validate_optional_int (prompt_tokens result),
            validate_optional_int (completion_tokens result),
            validate_str (reply result) with
      | Some p, Some c, Some r =>
          Ok {| response_id := fresh_id;
                response_reply := r;
                response_model := result_model result;
                usage := {| usage_prompt_tokens := p; usage_completion_tokens := c |} |}
      | _, _, _ => HTTPException 500 "Internal server error"
      end
  | Raise (GeminiTimeoutError _) => HTTPException 504 "Request to Gemini AI timed out"
  | Raise (GeminiError message status) =>
      let status_code :=
        match status with
        | Some 401 => 500
        | Some 429 => 503
        | _ => 502
        end in
      HTTPException status_code ("Gemini API error: " ++ message)
  | Raise _ => HTTPException 500 "Internal server error"
  end.

(** ** Admission *)

(** Modelled from the spec: the limiter behind [@limiter.limit] is the
    slowapi package, which is not part of the sources. Section 4.2 of
    the specification describes it: one counter per caller identity,
    with the start of its window; a call whose count for the current
    window would exceed the limit is refused, any other call increments
    the counter; the counter is reset when its window has elapsed. *)
Record RateEntry : Type := {
  count : nat;
  window_start : Z
}.

(** Modelled from the spec: the entry in force at time [now], a fresh
    window when there is none or the old one has elapsed. *)
Definition current_entry (window now : Z) (e : option RateEntry) : RateEntry :=
  match e with
  | Some e => if now <? window_start e + window then e
              else {| count := 0; window_start := now |}
  | None => {| count := 0; window_start := now |}
  end.

(** Modelled from the spec: the admission check of section 4.2. *)
Definition admission (limit : nat) (window now : Z) (caller : string)
    (st : gmap string RateEntry) : bool * gmap string RateEntry :=
  let e := current_entry window now (st !! caller) in
  if (limit <? S (count e))%nat then (false, <[caller := e]> st)
  else (true, <[caller := {| count := S (count e); window_start := window_start e |}]> st).

(** The decorated route: [limiter.limit] wraps [ai_reply], keyed by the
    caller's remote address, so the body runs only for an admitted call.
    Besides the answer it yields the new counters and the requests sent
    upstream. *)
Definition handle `{PyRuntime} (limit : nat) (window : Z) (client : GeminiClient)
    (post : Transport) (st : gmap string RateEntry) (now : Z) (caller : string)
    (fresh_id : string) (ai_request : AIRequest)
  : gmap string RateEntry * list HttpRequest * Outward :=
  match admission limit window now caller st with
  | (false, st') => (st', [], RateLimitExceeded)
  | (true, st') =>
      (st', [build_request client (prompt ai_request) (max_tokens ai_request)],
       ai_reply fresh_id ai_request client post)
  end.

(** A run of calls, oldest first: each is a time, a caller, an
    identifier and a request. *)
Fixpoint handle_all `{PyRuntime} (limit : nat) (window : Z) (client : GeminiClient)
    (post : Transport) (st : gmap string RateEntry)
    (calls : list (Z * string * string * AIRequest))
  : gmap string RateEntry * list HttpRequest * list Outward :=
  match calls with
  | [] => (st, [], [])
  | (now, caller, fresh_id, ai_request) :: rest =>
      let '(st1, sent1, out1) :=
        handle limit window client post st now caller fresh_id ai_request in
      let '(st2, sent2, outs) := handle_all limit window client post st1 rest in
      (st2, (sent1 ++ sent2)%list, out1 :: outs)
  end.

(** ** Helpers for stating the claims *)

(** [needle in s] *)
Fixpoint contains (needle s : string) : bool :=
  String.prefix needle s ||
  match s with
  | EmptyString => false
  | String _ s' => contains needle s'
  end.

(** A runtime for the examples: [str] of the values they use, and a
    pydantic that coerces nothing. *)
Definition sample_runtime : PyRuntime :=
  {| str_of := fun v => match v with JNull => "None" | _ => "" end;
     coerce_str := fun _ => None;
     coerce_int := fun _ => None |}.

Definition sample_client : GeminiClient := GeminiClient_init "test_api_key_12345".

(** A stub upstream that answers every request with [r]. *)
Definition stub (r : Result Response) : Transport := fun _ => r.

Definition success_body : Json :=
  JDict [("candidates",
          JList [JDict [("content",
                         JDict [("parts", JList [JDict [("text", JStr "Hi there")]])])]]);
         ("usageMetadata",
          JDict [("promptTokenCount", JInt 3); ("candidatesTokenCount", JInt 4)])].

(** The first content part of the first candidate, for a body that has
    the shape of the upstream contract down to that part. *)
Definition first_part (data : Json) : option (list (string * Json)) :=
  match data with
  | JDict d =>
      match dict_get d "candidates" (JList []) with
      | JList (JDict candidate :: _) =>
          match dict_get candidate "content" (JDict []) with
          | JDict content =>
              match dict_get content "parts" (JList []) with
              | JList (JDict part :: _) => Some part
              | _ => None
              end
          | _ => None
          end
      | _ => None
      end
  | _ => None
  end.

(** The token count a body gives under [key] of [usageMetadata]: unset
    when the metadata or the count is absent or null, the integer when
    there is one; no answer for a body outside the upstream contract. *)
Definition usage_count (data : Json) (key : string) : option (option Z) :=
  match data with
  | JDict d =>
      match dict_lookup "usageMetadata" d with
      | None => Some None
      | Some (JDict u) =>
          match dict_lookup key u with
          | None | Some JNull => Some None
          | Some (JInt n) => Some (Some n)
          | Some _ => None
          end
      | Some _ => None
      end
  | _ => None
  end.

(** The outward status section 4.2 of the specification gives an
    upstream rejection with status [s], as its table words it. *)
Definition spec_rejection_status (s : Z) : Z :=
  if (s =? 401) || (s =? 403) then 500
  else if s =? 429 then 503
  else 502.

Definition hello : AIRequest := {| prompt := "Hello"; max_tokens := Some 100 |}.

(** An upstream that refuses the credentials; its body is not JSON. *)
Definition unauthorized : Response :=
  {| status_code := 401;
     text := "Unauthorized (401): API key expired";
     json := Raise (OtherException "Expecting value: line 1 column 1 (char 0)") |}.

Definition forbidden : Response :=
  {| status_code := 403;
     text := "Forbidden";
     json := Raise (OtherException "Expecting value: line 1 column 1 (char 0)") |}.

(** A response with status 200, given by what its body decodes to; the
    raw text is not read on that path. *)
Definition decoded (data : Json) : Response :=
  {| status_code := 200; text := ""; json := Return data |}.

Definition no_candidates_body : Json := JDict [("candidates", JList [])].

Definition no_parts_body : Json :=
  JDict [("candidates", JList [JDict [("content", JDict [("parts", JList [])])]])].

Definition empty_text_body : Json :=
  JDict [("candidates",
          JList [JDict [("content", JDict [("parts", JList [JDict [("text", JStr "")]])])]])].

Definition no_text_body : Json :=
  JDict [("candidates",
          JList [JDict [("content",
                         JDict [("parts", JList [JDict [("thought", JBool true)]])])]])].

Definition connection_refused : exn := OtherException "All connection attempts failed".

(** Counters in which one caller has used up a limit of two. *)
Definition busy : gmap string RateEntry :=
  <["10.0.0.1" := {| count := 2; window_start := 0 |}]> ∅.

(** ** The client dependency and the health routes *)

(** [get_gemini_client]: the module keeps one client in the global
    [gemini_client]; [env] is the process environment, read by
    [os.getenv]; an unset or empty key raises the [HTTPException]. The
    result is what the call returns or raises, and the global after it. *)
Definition get_gemini_client (env : gmap string string) (gemini_client : option GeminiClient)
  : (Outward + GeminiClient) * option GeminiClient :=
  match gemini_client with
  | Some client => (inr client, Some client)
  | None =>
      match env !! "GEMINI_API_KEY" with
      | Some key =>
          if String.eqb key "" then
            (inl (HTTPException 500 "GEMINI_API_KEY not configured"), None)
          else (inr (GeminiClient_init key), Some (GeminiClient_init key))
      | None => (inl (HTTPException 500 "GEMINI_API_KEY not configured"), None)
      end
  end.

(** Successive calls of [get_gemini_client], each under the environment
    of its time. *)
Fixpoint get_gemini_client_all (envs : list (gmap string string))
    (gemini_client : option GeminiClient)
  : list (Outward + GeminiClient) * option GeminiClient :=
  match envs with
  | [] => ([], gemini_client)
  | env :: rest =>
      let '(answer, g1) := get_gemini_client env gemini_client in
      let '(answers, g2) := get_gemini_client_all rest g1 in
      (answer :: answers, g2)
  end.

(** [main.root] *)
Definition root : Json :=
  JDict [("status", JStr "healthy");
         ("service", JStr "Gemini AI Backend");
         ("version", JStr "1.0.0")].

(** [main.health_check] *)
Definition health_check (env : gmap string string) : Json :=
  let gemini_api_key := env !! "GEMINI_API_KEY" in
  JDict [("status", JStr "ok");
         ("gemini_configured",
          JBool match gemini_api_key with
                | Some key => negb (String.eqb key "")
                | None => false
                end);
         ("rate_limit",
          JStr match env !! "RATE_LIMIT_PER_MIN" with
               | Some limit => limit
               | None => "60"
               end)].

(** ** More helpers *)

(** An exception that is neither a timeout of the transport nor a
    [GeminiError]. *)
Definition ordinary (e : exn) : bool :=
  match e with
  | TimeoutException _ | GeminiError _ _ | GeminiTimeoutError _ => false
  | _ => true
  end.

(** An upstream that answers with what it was sent: the first item of
    the request's [contents] comes back as the content of its only
    candidate. *)
Definition echo : Transport := fun request =>
  Return (decoded
    (JDict [("candidates",
             JList [JDict [("content",
                            match json_payload request with
                            | JDict payload =>
                                match dict_lookup "contents" payload with
                                | Some (JList (item :: _)) => item
                                | _ => JNull
                                end
                            | _ => JNull
                            end)]])])).

(** A body that is fine but for its prompt token count. *)
Definition odd_count_body : Json :=
  JDict [("candidates",
          JList [JDict [("content",
                         JDict [("parts", JList [JDict [("text", JStr "Hi there")]])])]]);
         ("usageMetadata", JDict [("promptTokenCount", JStr "three")])].

Definition null_usage_body : Json :=
  JDict [("candidates",
          JList [JDict [("content",
                         JDict [("parts", JList [JDict [("text", JStr "Hi there")]])])]]);
         ("usageMetadata", JNull)].

Definition numbered_candidates_body : Json :=
  JDict [("candidates", JDict [("0", JDict [("content", JDict [])])])].

Definition configured : gmap string string :=
  <["GEMINI_API_KEY" := "test_api_key_12345"]> ∅.

(** ** [list_models.py] *)

(** The first line [list_models] prints, before it calls the upstream:
    the address with the key in its query, cut to 80 characters.
    [api_key] is what [os.getenv] gives; [None] is formatted as such. *)
Definition list_models_banner (api_key : option string) : string :=
  let url :=
    "https://generativelanguage.googleapis.com/v1beta/models?key=" ++
    match api_key with Some key => key | None => "None" end in
  "Fetching models from: " ++ substring 0 80 url ++ "...".

Definition two_candidates_body : Json :=
  JDict [("modelVersion", JStr "gemini-2.5-flash");
         ("candidates",
          JList [JDict [("content",
                         JDict [("parts", JList [JDict [("text", JStr "Hi there")];
                                                 JDict [("text", JStr "again")]]);
                                ("role", JStr "model")]);
                        ("index", JInt 0)];
                 JDict [("content",
                         JDict [("parts", JList [JDict [("text", JStr "Hello")]])]);
                        ("index", JInt 1)]])].

(** * Properties *)

Section Extraction.

Lemma bind_Return_inv {A B : Type} (m : Result A) (k : A -> Result B) (b : B) :
  bind m k = Return b -> exists a, m = Return a /\ k a = Return b.
Proof. destruct m as [a|e]; cbn; [eauto | discriminate]. Qed.

Lemma substring_prefix_length (n : nat) (s : string) :
  (String.length (substring 0 n s) <= n)%nat.
Proof.
  revert s. induction n as [|n IH]; intros [|c s]; cbn; try lia.
  specialize (IH s). lia.
Qed.

(** On a body that reaches its first content part, extraction is
    decided by the truth value of that part's [text]. *)
Lemma extract_reply_first_part (data : Json) (part : list (string * Json)) :
  first_part data = Some part ->
  _extract_reply data =
    if truthy (dict_get part "text" (JStr "")) then Return (dict_get part "text" (JStr ""))
    else Raise (GeminiError "Empty reply from Gemini" None).
Proof.
  unfold first_part, _extract_reply, extract_reply_try. intros Hp.
  destruct data as [| | | | | |d]; try discriminate. cbn.
  destruct (dict_get d "candidates" (JList [])) as [| | | | |[|[| | | | | |c] cs]|];
    try discriminate. cbn.
  destruct (dict_get c "content" (JDict [])) as [| | | | | |ct]; try discriminate. cbn.
  destruct (dict_get ct "parts" (JList [])) as [| | | | |[|[| | | | | |p] ps]|];
    try discriminate. cbn.
  injection Hp as ->.
  now destruct (truthy (dict_get part "text" (JStr ""))).
Qed.

Lemma extract_reply_no_candidates (d : list (string * Json)) :
  truthy (dict_get d "candidates" (JList [])) = false ->
  _extract_reply (JDict d) = Raise (GeminiError "No candidates in response" None).
Proof. unfold _extract_reply, extract_reply_try. cbn. now intros ->. Qed.

Lemma extract_reply_no_parts (d c ct : list (string * Json)) (cs : list Json) :
  dict_get d "candidates" (JList []) = JList (JDict c :: cs) ->
  dict_get c "content" (JDict []) = JDict ct ->
  truthy (dict_get ct "parts" (JList [])) = false ->
  _extract_reply (JDict d) = Raise (GeminiError "No parts in response content" None).
Proof.
  unfold _extract_reply, extract_reply_try. cbn.
  intros -> Hc Hp. cbn. rewrite Hc. cbn. now rewrite Hp.
Qed.

(** What [_extract_reply] returns is never empty. *)
Lemma extract_reply_truthy (data reply : Json) :
  _extract_reply data = Return reply -> truthy reply = true.
Proof.
  intros Hr.
  assert (Ht : extract_reply_try data = Return reply).
  { unfold _extract_reply in Hr.
    destruct (extract_reply_try data) as [a|[]]; cbn in Hr; congruence. }
  clear Hr. unfold extract_reply_try in Ht.
  apply bind_Return_inv in Ht as (candidates & _ & Ht).
  destruct (truthy candidates); [cbn in Ht|discriminate].
  apply bind_Return_inv in Ht as (candidate & _ & Ht).
  apply bind_Return_inv in Ht as (content & _ & Ht).
  apply bind_Return_inv in Ht as (parts & _ & Ht).
  destruct (truthy parts); [cbn in Ht|discriminate].
  apply bind_Return_inv in Ht as (part & _ & Ht).
  apply bind_Return_inv in Ht as (text & _ & Ht).
  destruct (truthy text) eqn:E; [cbn in Ht|discriminate].
  now injection Ht as <-.
Qed.

End Extraction.

Section Client.
Context `{PyRuntime}.
Variables (client : GeminiClient) (post : Transport).
Variables (p : string) (n : option Z).

(** An exception of the protected block that is neither a timeout of
    the transport nor a [GeminiError] is wrapped. *)
Lemma generate_response_wraps (e : exn) :
  generate_response_try client post p n = Raise e ->
  is_GeminiError e = false ->
  (forall m, e <> TimeoutException m) ->
  generate_response client post p n =
    Raise (GeminiError ("Unexpected error: " ++ exn_str e) None).
Proof.
  unfold generate_response. intros -> Hg Ht.
  destruct e; try reflexivity; try discriminate. now destruct (Ht message).
Qed.

Lemma generate_response_try_transport (e : exn) :
  post (build_request client p n) = Raise e ->
  generate_response_try client post p n = Raise e.
Proof. unfold generate_response_try. now intros ->. Qed.

Lemma generate_response_timeout (m : string) :
  post (build_request client p n) = Raise (TimeoutException m) ->
  generate_response client post p n =
    Raise (GeminiTimeoutError "Request to Gemini API timed out").
Proof.
  intros Hp. unfold generate_response.
  now rewrite (generate_response_try_transport _ Hp).
Qed.

Lemma generate_response_try_rejected (r : Response) :
  post (build_request client p n) = Return r ->
  status_code r <> 200 ->
  generate_response_try client post p n =
    Raise (GeminiError ("Gemini API error: " ++ format (error_detail r))
                       (Some (status_code r))).
Proof.
  unfold generate_response_try. intros -> Hs. cbn.
  apply Z.eqb_neq in Hs. now rewrite Hs.
Qed.

Lemma generate_response_rejected (r : Response) :
  post (build_request client p n) = Return r ->
  status_code r <> 200 ->
  generate_response client post p n =
    Raise (GeminiError ("Gemini API error: " ++ format (error_detail r))
                       (Some (status_code r))).
Proof.
  intros Hp Hs. unfold generate_response.
  now rewrite (generate_response_try_rejected r Hp Hs).
Qed.

Lemma generate_response_try_success (r : Response) (data : Json) :
  post (build_request client p n) = Return r ->
  status_code r = 200 ->
  json r = Return data ->
  generate_response_try client post p n =
    (reply <- _extract_reply data ;;
     usage_metadata <- py_get data "usageMetadata" (JDict []) ;;
     prompt_tokens <- py_get usage_metadata "promptTokenCount" JNull ;;
     completion_tokens <- py_get usage_metadata "candidatesTokenCount" JNull ;;
     Return {| reply := reply; result_model := model client;
               prompt_tokens := prompt_tokens; completion_tokens := completion_tokens |}).
Proof.
  unfold generate_response_try. intros -> Hs Hj. cbn [bind].
  rewrite Hs, Hj. reflexivity.
Qed.

(** A [GeminiError] of the extraction leaves [generate_response] as it is. *)
Lemma generate_response_extract_error (r : Response) (data : Json) (m : string)
    (s : option Z) :
  post (build_request client p n) = Return r ->
  status_code r = 200 ->
  json r = Return data ->
  _extract_reply data = Raise (GeminiError m s) ->
  generate_response client post p n = Raise (GeminiError m s).
Proof.
  intros Hp Hs Hj He. unfold generate_response.
  rewrite (generate_response_try_success r data Hp Hs Hj), He. reflexivity.
Qed.

Lemma usage_count_get (d : list (string * Json)) (key : string) (c : option Z) :
  usage_count (JDict d) key = Some c ->
  py_get (dict_get d "usageMetadata" (JDict [])) key JNull =
    Return match c with Some k => JInt k | None => JNull end.
Proof.
  unfold usage_count, dict_get.
  destruct (dict_lookup "usageMetadata" d) as [[| | | | | |u]|]; try discriminate; cbn.
  - unfold dict_get.
    destruct (dict_lookup key u) as [[]|]; try discriminate; now intros [= <-].
  - now intros [= <-].
Qed.

(** A body of the upstream contract is passed on: its text and counts. *)
Lemma generate_response_success (r : Response) (data : Json)
    (part : list (string * Json)) (t : string) (pt ct : option Z) :
  post (build_request client p n) = Return r ->
  status_code r = 200 ->
  json r = Return data ->
  first_part data = Some part ->
  dict_lookup "text" part = Some (JStr t) ->
  t <> "" ->
  usage_count data "promptTokenCount" = Some pt ->
  usage_count data "candidatesTokenCount" = Some ct ->
  generate_response client post p n =
    Return {| reply := JStr t; result_model := model client;
              prompt_tokens := match pt with Some k => JInt k | None => JNull end;
              completion_tokens := match ct with Some k => JInt k | None => JNull end |}.
Proof.
  intros Hp Hs Hj Hf Ht Hne Hpt Hct. unfold generate_response.
  rewrite (generate_response_try_success r data Hp Hs Hj).
  rewrite (extract_reply_first_part data part Hf).
  unfold dict_get at 1 2. rewrite Ht.
  assert (Htr : truthy (JStr t) = true).
  { cbn. destruct (String.eqb_spec t ""); [contradiction|reflexivity]. }
  rewrite Htr. cbn [bind].
  destruct data as [| | | | | |d]; try discriminate. cbn [py_get bind].
  rewrite (usage_count_get d _ pt Hpt). cbn [bind].
  rewrite (usage_count_get d _ ct Hct). reflexivity.
Qed.

Lemma structured_error_message_found (r : Response) (d err : list (string * Json))
    (v : Json) :
  json r = Return (JDict d) ->
  dict_lookup "error" d = Some (JDict err) ->
  dict_lookup "message" err = Some v ->
  structured_error_message r = Return v.
Proof.
  unfold structured_error_message. intros -> Hd He. cbn. unfold dict_get.
  rewrite Hd. cbn. unfold dict_get. now rewrite He.
Qed.

(** A body that decodes to a dict without [error], or whose [error]
    is a dict without [message], reads as the default text. *)
Lemma structured_error_message_default (r : Response) (d : list (string * Json)) :
  json r = Return (JDict d) ->
  dict_lookup "error" d = None \/
  (exists err, dict_lookup "error" d = Some (JDict err) /\
               dict_lookup "message" err = None) ->
  structured_error_message r = Return (JStr "Unknown error").
Proof.
  unfold structured_error_message. intros -> [Hd|(err & Hd & Hm)];
    cbn; unfold dict_get; rewrite Hd; cbn; [reflexivity|].
  unfold dict_get. now rewrite Hm.
Qed.

(** The structured reading fails when the body does not decode, and
    when what it decodes to, or its [error] member, is not a dict. *)
Lemma structured_error_message_fails (r : Response) :
  (exists e, structured_error_message r = Raise e) <->
  (exists e, json r = Raise e) \/
  (exists v, json r = Return v /\ type_name v <> "dict") \/
  (exists d v, json r = Return (JDict d) /\ dict_lookup "error" d = Some v /\
               type_name v <> "dict").
Proof.
  unfold structured_error_message. split.
  - intros [e He]. destruct (json r) as [v|e0]; [|eauto].
    right. destruct v as [| | | | | |d];
      try (left; eexists; split; [reflexivity|discriminate]).
    right. cbn in He. unfold dict_get in He.
    destruct (dict_lookup "error" d) as [v|] eqn:Hd; [|discriminate].
    destruct v; cbn in He; try discriminate;
      (exists d; eexists; split; [reflexivity|split; [exact Hd|discriminate]]).
  - intros [[e ->]|[(v & -> & Hv)|(d & v & -> & Hd & Hv)]].
    + now exists e.
    + destruct v; cbn; eauto. now destruct Hv.
    + cbn. unfold dict_get. rewrite Hd. destruct v; cbn; eauto. now destruct Hv.
Qed.

(** C6: an upstream response whose status is not 200 makes
    [generate_response] raise a [GeminiError] that carries that very
    status; its message is, after the fixed label, the message the
    structured reading of the body finds, and when that reading fails
    it is the first 200 characters of the raw body. *)
Theorem rejection_keeps_status_and_message (r : Response) :
  post (build_request client p n) = Return r ->
  status_code r <> 200 ->
  generate_response client post p n =
    Raise (GeminiError ("Gemini API error: " ++ format (error_detail r))
                       (Some (status_code r))) /\
  (forall d err m,
      json r = Return (JDict d) ->
      dict_lookup "error" d = Some (JDict err) ->
      dict_lookup "message" err = Some (JStr m) ->
      format (error_detail r) = m) /\
  (forall e,
      structured_error_message r = Raise e ->
      format (error_detail r) = substring 0 200 (text r) /\
      (String.length (format (error_detail r)) <= 200)%nat).
Proof.
  intros Hp Hs. split; [exact (generate_response_rejected r Hp Hs)|]. split.
  - intros d err m Hj Hd Hm. unfold error_detail.
    now rewrite (structured_error_message_found r d err (JStr m) Hj Hd Hm).
  - intros e He. unfold error_detail. rewrite He. cbn [format].
    split; [reflexivity|apply substring_prefix_length].
Qed.

(** C9: one call of [generate_response] ends in exactly one of two
    ways: it returns a result whose reply is not empty and whose model
    is the client's, or it raises a [GeminiError] (the timeout error
    is one); no other exception leaves it. *)
Theorem generate_response_one_outcome :
  ((exists result,
       generate_response client post p n = Return result /\
       truthy (reply result) = true /\
       (forall t, reply result = JStr t -> t <> "") /\
       result_model result = model client) /\
   (forall e, generate_response client post p n <> Raise e))
  \/
  ((exists e, generate_response client post p n = Raise e /\ is_GeminiError e = true) /\
   (forall result, generate_response client post p n <> Return result)).
Proof.
  destruct (generate_response client post p n) as [result|e] eqn:Hg.
  - left. split; [|discriminate]. exists result. split; [reflexivity|].
    unfold generate_response in Hg.
    destruct (generate_response_try client post p n) as [result'|e] eqn:Ha;
      [|destruct e; discriminate].
    injection Hg as ->. unfold generate_response_try in Ha.
    apply bind_Return_inv in Ha as (response & _ & Ha).
    destruct (negb (status_code response =? 200)); [discriminate|].
    apply bind_Return_inv in Ha as (data & _ & Ha).
    apply bind_Return_inv in Ha as (text & Hx & Ha).
    apply bind_Return_inv in Ha as (usage_metadata & _ & Ha).
    apply bind_Return_inv in Ha as (pt & _ & Ha).
    apply bind_Return_inv in Ha as (ct & _ & Ha).
    injection Ha as <-. cbn.
    pose proof (extract_reply_truthy data text Hx) as Ht.
    split; [exact Ht|]. split; [|reflexivity].
    intros t -> ->. discriminate.
  - right. split; [|discriminate]. exists e. split; [reflexivity|].
    unfold generate_response in Hg.
    destruct (generate_response_try client post p n) as [result'|e']; [discriminate|].
    destruct e'; injection Hg as <-; reflexivity.
Qed.

(** C10: when the first part of the first candidate has no [text]
    member at all, extraction fails exactly as for an empty text, with
    the message [Empty reply from Gemini]. *)
Theorem missing_text_is_empty_reply (r : Response) (data : Json)
    (part : list (string * Json)) :
  post (build_request client p n) = Return r ->
  status_code r = 200 ->
  json r = Return data ->
  first_part data = Some part ->
  dict_lookup "text" part = None ->
  _extract_reply data = Raise (GeminiError "Empty reply from Gemini" None) /\
  generate_response client post p n = Raise (GeminiError "Empty reply from Gemini" None) /\
  (forall data' part',
      first_part data' = Some part' ->
      dict_lookup "text" part' = Some (JStr "") ->
      _extract_reply data' = _extract_reply data).
Proof.
  intros Hp Hs Hj Hf Ht.
  assert (He : _extract_reply data = Raise (GeminiError "Empty reply from Gemini" None)).
  { rewrite (extract_reply_first_part data part Hf). unfold dict_get. now rewrite Ht. }
  split; [exact He|]. split.
  - exact (generate_response_extract_error r data _ None Hp Hs Hj He).
  - intros data' part' Hf' Ht'. rewrite He.
    rewrite (extract_reply_first_part data' part' Hf'). unfold dict_get. now rewrite Ht'.
Qed.

End Client.

Section Handler.
Context `{PyRuntime}.
Variables (client : GeminiClient) (post : Transport).
Variables (fresh_id : string) (ai_request : AIRequest).

(** The [if]/[elif] chain on [e.status_code], as a function of the status. *)
Lemma status_chain (s : Z) :
  match s with 401 => 500 | 429 => 503 | _ => 502 end =
  if s =? 401 then 500 else if s =? 429 then 503 else 502.
Proof.
  destruct s as [|q|q]; try reflexivity.
  do 9 (try (destruct q as [q|q|]; try reflexivity)).
Qed.

Lemma ai_reply_GeminiError (m : string) (s : option Z) :
  generate_response client post (prompt ai_request) (max_tokens ai_request) =
    Raise (GeminiError m s) ->
  ai_reply fresh_id ai_request client post =
    HTTPException
      match s with
      | Some s => if s =? 401 then 500 else if s =? 429 then 503 else 502
      | None => 502
      end ("Gemini API error: " ++ m).
Proof.
  unfold ai_reply. intros ->.
  destruct s as [s|]; [|reflexivity]. now rewrite <- status_chain.
Qed.

Lemma ai_reply_GeminiTimeoutError (m : string) :
  generate_response client post (prompt ai_request) (max_tokens ai_request) =
    Raise (GeminiTimeoutError m) ->
  ai_reply fresh_id ai_request client post =
    HTTPException 504 "Request to Gemini AI timed out".
Proof. unfold ai_reply. now intros ->. Qed.

Lemma ai_reply_success (t m : string) (pt ct : option Z) :
  generate_response client post (prompt ai_request) (max_tokens ai_request) =
    Return {| reply := JStr t; result_model := m;
              prompt_tokens := match pt with Some k => JInt k | None => JNull end;
              completion_tokens := match ct with Some k => JInt k | None => JNull end |} ->
  ai_reply fresh_id ai_request client post =
    Ok {| response_id := fresh_id; response_reply := t; response_model := m;
          usage := {| usage_prompt_tokens := pt; usage_completion_tokens := ct |} |}.
Proof. unfold ai_reply. intros ->. now destruct pt, ct. Qed.

(** C5: when the transport call runs out of its time budget (httpx
    raises [TimeoutException]), [generate_response] raises
    [GeminiTimeoutError] and nothing else, and the handler answers
    504 Gateway Timeout. *)
Theorem timeout_is_gateway_timeout (m : string) :
  post (build_request client (prompt ai_request) (max_tokens ai_request)) =
    Raise (TimeoutException m) ->
  generate_response client post (prompt ai_request) (max_tokens ai_request) =
    Raise (GeminiTimeoutError "Request to Gemini API timed out") /\
  ai_reply fresh_id ai_request client post =
    HTTPException 504 "Request to Gemini AI timed out".
Proof.
  intros Hp.
  pose proof (generate_response_timeout client post _ _ m Hp) as Hg.
  split; [exact Hg|]. exact (ai_reply_GeminiTimeoutError _ Hg).
Qed.

(** C2, amended: for a [GeminiError] carrying the upstream status [s],
    the handler answers 500 when [s] is 401, 503 when [s] is 429, and
    502 for every other [s], 403 included. *)
Theorem rejection_status_mapping (m : string) (s : Z) :
  generate_response client post (prompt ai_request) (max_tokens ai_request) =
    Raise (GeminiError m (Some s)) ->
  ai_reply fresh_id ai_request client post =
    HTTPException (if s =? 401 then 500 else if s =? 429 then 503 else 502)
                  ("Gemini API error: " ++ m).
Proof. intros Hg. exact (ai_reply_GeminiError m (Some s) Hg). Qed.

(** C3, amended: a failure of [generate_response] that is neither a
    timeout nor a [GeminiError] (upstream rejection, response
    validation) is raised as a [GeminiError] without status whose
    message is [Unexpected error: ] followed by the failure's text,
    and the handler answers it with 502 Bad Gateway and the detail
    [Gemini API error: Unexpected error: ] followed by that text. *)
Theorem unexpected_failure_is_bad_gateway (e : exn) :
  generate_response_try client post (prompt ai_request) (max_tokens ai_request) = Raise e ->
  is_GeminiError e = false ->
  (forall m, e <> TimeoutException m) ->
  generate_response client post (prompt ai_request) (max_tokens ai_request) =
    Raise (GeminiError ("Unexpected error: " ++ exn_str e) None) /\
  ai_reply fresh_id ai_request client post =
    HTTPException 502 ("Gemini API error: Unexpected error: " ++ exn_str e).
Proof.
  intros Ht Hg Hn.
  pose proof (generate_response_wraps client post _ _ e Ht Hg Hn) as Hw.
  split; [exact Hw|]. exact (ai_reply_GeminiError _ None Hw).
Qed.

(** C4: for a response with status 200 whose body decodes to a dict,
    no candidates, no parts in the first candidate's content, and an
    empty text of the first part each make [generate_response] raise a
    [GeminiError] without status whose message names the stage, and
    the handler answers each with 502 Bad Gateway. *)
Theorem validation_failures_are_bad_gateway (r : Response) (d : list (string * Json)) :
  post (build_request client (prompt ai_request) (max_tokens ai_request)) = Return r ->
  status_code r = 200 ->
  json r = Return (JDict d) ->
  (truthy (dict_get d "candidates" (JList [])) = false ->
     generate_response client post (prompt ai_request) (max_tokens ai_request) =
       Raise (GeminiError "No candidates in response" None) /\
     ai_reply fresh_id ai_request client post =
       HTTPException 502 "Gemini API error: No candidates in response") /\
  (forall c ct cs,
     dict_get d "candidates" (JList []) = JList (JDict c :: cs) ->
     dict_get c "content" (JDict []) = JDict ct ->
     truthy (dict_get ct "parts" (JList [])) = false ->
     generate_response client post (prompt ai_request) (max_tokens ai_request) =
       Raise (GeminiError "No parts in response content" None) /\
     ai_reply fresh_id ai_request client post =
       HTTPException 502 "Gemini API error: No parts in response content") /\
  (forall part,
     first_part (JDict d) = Some part ->
     truthy (dict_get part "text" (JStr "")) = false ->
     generate_response client post (prompt ai_request) (max_tokens ai_request) =
       Raise (GeminiError "Empty reply from Gemini" None) /\
     ai_reply fresh_id ai_request client post =
       HTTPException 502 "Gemini API error: Empty reply from Gemini").
Proof.
  intros Hp Hs Hj.
  assert (Hgate : forall m,
             _extract_reply (JDict d) = Raise (GeminiError m None) ->
             generate_response client post (prompt ai_request) (max_tokens ai_request) =
               Raise (GeminiError m None) /\
             ai_reply fresh_id ai_request client post =
               HTTPException 502 ("Gemini API error: " ++ m)).
  { intros m He.
    pose proof (generate_response_extract_error client post _ _ r (JDict d) m None
                  Hp Hs Hj He) as Hg.
    split; [exact Hg|]. exact (ai_reply_GeminiError m None Hg). }
  split; [|split].
  - intros Hc. apply Hgate. now apply extract_reply_no_candidates.
  - intros c ct cs Hc Hct Hparts. apply Hgate.
    now apply (extract_reply_no_parts d c ct cs).
  - intros part Hf Ht. apply Hgate.
    rewrite (extract_reply_first_part (JDict d) part Hf). now rewrite Ht.
Qed.

(** The detail of a rejection is the upstream's own text under two
    labels, whatever the status. *)
Lemma ai_reply_rejected (r : Response) :
  post (build_request client (prompt ai_request) (max_tokens ai_request)) = Return r ->
  status_code r <> 200 ->
  ai_reply fresh_id ai_request client post =
    HTTPException
      (if status_code r =? 401 then 500 else if status_code r =? 429 then 503 else 502)
      ("Gemini API error: Gemini API error: " ++ format (error_detail r)).
Proof.
  intros Hp Hs.
  exact (ai_reply_GeminiError _ (Some (status_code r))
           (generate_response_rejected client post _ _ r Hp Hs)).
Qed.

(** C7: for a valid request and a response with status 200 whose body
    follows the upstream contract, the handler answers with the text of
    the first candidate's first content part as reply and with the
    body's token counts as usage, each unset when the body has none. *)
Theorem well_formed_success_is_passed_on (r : Response) (data : Json)
    (part : list (string * Json)) (t : string) (pt ct : option Z) :
  valid_request ai_request = true ->
  post (build_request client (prompt ai_request) (max_tokens ai_request)) = Return r ->
  status_code r = 200 ->
  json r = Return data ->
  first_part data = Some part ->
  dict_lookup "text" part = Some (JStr t) ->
  t <> "" ->
  usage_count data "promptTokenCount" = Some pt ->
  usage_count data "candidatesTokenCount" = Some ct ->
  ai_reply fresh_id ai_request client post =
    Ok {| response_id := fresh_id; response_reply := t; response_model := model client;
          usage := {| usage_prompt_tokens := pt; usage_completion_tokens := ct |} |}.
Proof.
  intros _ Hp Hs Hj Hf Ht Hne Hpt Hct.
  apply ai_reply_success.
  exact (generate_response_success client post _ _ r data part t pt ct
           Hp Hs Hj Hf Ht Hne Hpt Hct).
Qed.

End Handler.

Section Admission.
Context `{PyRuntime}.
Variables (limit : nat) (window : Z) (client : GeminiClient) (post : Transport).

Lemma admission_other (st : gmap string RateEntry) (now : Z) (caller other : string) :
  other <> caller ->
  (admission limit window now caller st).2 !! other = st !! other.
Proof.
  intros Hne. unfold admission.
  destruct (limit <? S (count (current_entry window now (st !! caller))))%nat; cbn;
    now rewrite lookup_insert_ne.
Qed.

(** The decision for a caller, and the caller's new counter, depend on
    that caller's counter alone. *)
Lemma admission_own_entry (st1 st2 : gmap string RateEntry) (now : Z) (caller : string) :
  st1 !! caller = st2 !! caller ->
  (admission limit window now caller st1).1 = (admission limit window now caller st2).1 /\
  (admission limit window now caller st1).2 !! caller =
  (admission limit window now caller st2).2 !! caller.
Proof.
  intros Heq. unfold admission. rewrite Heq.
  destruct (limit <? S (count (current_entry window now (st2 !! caller))))%nat; cbn;
    now rewrite !lookup_insert_eq.
Qed.

Lemma admission_full (st : gmap string RateEntry) (now : Z) (caller : string) (e : RateEntry) :
  st !! caller = Some e ->
  (limit <= count e)%nat ->
  now < window_start e + window ->
  admission limit window now caller st = (false, st).
Proof.
  intros He Hc Hw. unfold admission. rewrite He. unfold current_entry.
  apply Z.ltb_lt in Hw. rewrite Hw.
  assert (Hlt : (limit <? S (count e))%nat = true) by (apply Nat.ltb_lt; lia).
  rewrite Hlt. now rewrite (insert_id st caller e He).
Qed.

Lemma handle_allowed (st st' : gmap string RateEntry) (now : Z) (caller fresh_id : string)
    (ai_request : AIRequest) :
  admission limit window now caller st = (true, st') ->
  handle limit window client post st now caller fresh_id ai_request =
    (st', [build_request client (prompt ai_request) (max_tokens ai_request)],
     ai_reply fresh_id ai_request client post).
Proof. unfold handle. now intros ->. Qed.

Lemma handle_own_entry (st1 st2 : gmap string RateEntry) (now : Z) (caller fresh_id : string)
    (ai_request : AIRequest) :
  st1 !! caller = st2 !! caller ->
  (handle limit window client post st1 now caller fresh_id ai_request).2 =
  (handle limit window client post st2 now caller fresh_id ai_request).2 /\
  (handle limit window client post st1 now caller fresh_id ai_request).1.2 =
  (handle limit window client post st2 now caller fresh_id ai_request).1.2 /\
  (handle limit window client post st1 now caller fresh_id ai_request).1.1 !! caller =
  (handle limit window client post st2 now caller fresh_id ai_request).1.1 !! caller.
Proof.
  intros Heq. destruct (admission_own_entry st1 st2 now caller Heq) as [Hd He].
  unfold handle.
  destruct (admission limit window now caller st1) as [[] s1],
           (admission limit window now caller st2) as [[] s2];
    cbn in *; try discriminate; auto.
Qed.

Lemma handle_all_app (st : gmap string RateEntry)
    (calls1 calls2 : list (Z * string * string * AIRequest)) :
  handle_all limit window client post st (calls1 ++ calls2)%list =
    let '(st1, sent1, outs1) := handle_all limit window client post st calls1 in
    let '(st2, sent2, outs2) := handle_all limit window client post st1 calls2 in
    (st2, (sent1 ++ sent2)%list, (outs1 ++ outs2)%list).
Proof.
  revert st. induction calls1 as [|[[[now caller] fresh_id] ai_request] calls1 IH]; intros st.
  - cbn. now destruct (handle_all limit window client post st calls2) as [[st2 sent2] outs2].
  - cbn [handle_all app].
    destruct (handle limit window client post st now caller fresh_id ai_request)
      as [[st1 sent1] out1].
    rewrite IH.
    destruct (handle_all limit window client post st1 calls1) as [[st2 sent2] outs2].
    destruct (handle_all limit window client post st2 calls2) as [[st3 sent3] outs3].
    now rewrite <- app_assoc.
Qed.

(** Calls of one caller inside the window, as long as the limit has
    room for them, are all admitted: each is counted, sent upstream
    and answered by [ai_reply]. *)
Lemma allowed_run (caller : string) (calls : list (Z * string * string * AIRequest)) :
  forall (st : gmap string RateEntry) (e : RateEntry),
    st !! caller = Some e ->
    Forall (fun call => call.1.1.2 = caller /\ call.1.1.1 < window_start e + window) calls ->
    (count e + length calls <= limit)%nat ->
    handle_all limit window client post st calls =
      (<[caller := {| count := count e + length calls; window_start := window_start e |}]> st,
       map (fun call => build_request client (prompt call.2) (max_tokens call.2)) calls,
       map (fun call => ai_reply call.1.2 call.2 client post) calls).
Proof.
  induction calls as [|[[[now c] fresh_id] ai_request] calls IH]; intros st e He Hall Hroom.
  - cbn. rewrite Nat.add_0_r. destruct e as [n w]. cbn. now rewrite (insert_id st caller _ He).
  - apply Forall_cons in Hall as [[Hc Hw] Hall]. cbn in Hc, Hw. subst c.
    cbn [length] in Hroom. cbn [handle_all].
    assert (Ha : admission limit window now caller st =
                 (true, <[caller := {| count := S (count e);
                                       window_start := window_start e |}]> st)).
    { unfold admission. rewrite He. unfold current_entry.
      apply Z.ltb_lt in Hw. rewrite Hw.
      assert (Hlt : (limit <? S (count e))%nat = false) by (apply Nat.ltb_ge; lia).
      now rewrite Hlt. }
    rewrite (handle_allowed _ _ now caller fresh_id ai_request Ha).
    rewrite (IH _ {| count := S (count e); window_start := window_start e |});
      [| now rewrite lookup_insert_eq | exact Hall | cbn; lia].
    cbn. rewrite insert_insert_eq. now rewrite Nat.add_succ_r.
Qed.

(** A burst of one caller inside one window: the calls the limit has
    room for are answered, the next one is refused and sends nothing. *)
Lemma burst_is_cut_at_limit (caller : string) (calls : list (Z * string * string * AIRequest))
    (st : gmap string RateEntry) (e : RateEntry) (now : Z) (fresh_id : string)
    (ai_request : AIRequest) :
  st !! caller = Some e ->
  Forall (fun call => call.1.1.2 = caller /\ call.1.1.1 < window_start e + window) calls ->
  (count e + length calls = limit)%nat ->
  now < window_start e + window ->
  handle_all limit window client post st (calls ++ [(now, caller, fresh_id, ai_request)])%list =
    (<[caller := {| count := limit; window_start := window_start e |}]> st,
     map (fun call => build_request client (prompt call.2) (max_tokens call.2)) calls,
     (map (fun call => ai_reply call.1.2 call.2 client post) calls ++ [RateLimitExceeded])%list).
Proof.
  intros He Hall Hroom Hw. rewrite handle_all_app.
  rewrite (allowed_run caller calls st e He Hall) by lia. rewrite Hroom.
  cbn [handle_all]. unfold handle.
  rewrite (admission_full _ now caller {| count := limit; window_start := window_start e |});
    [| now rewrite lookup_insert_eq | cbn; lia | exact Hw].
  now rewrite !app_nil_r.
Qed.

(** C8: when a caller's counter for the window in force has reached
    the limit, that caller's next call is refused with the rate-limit
    error and no request goes upstream; the counters of the other
    callers stay as they are, and a call of another caller is decided
    and answered from that caller's own counter alone. *)
Theorem full_window_refuses_caller_only (st : gmap string RateEntry) (now : Z)
    (caller fresh_id : string) (ai_request : AIRequest) (e : RateEntry) :
  st !! caller = Some e ->
  (limit <= count e)%nat ->
  now < window_start e + window ->
  handle limit window client post st now caller fresh_id ai_request =
    (st, [], RateLimitExceeded) /\
  (forall other st0 now' id' request',
      other <> caller ->
      st0 !! other = st !! other ->
      (handle limit window client post st now' other id' request').2 =
      (handle limit window client post st0 now' other id' request').2 /\
      (handle limit window client post st now' other id' request').1.2 =
      (handle limit window client post st0 now' other id' request').1.2 /\
      (handle limit window client post st now' other id' request').1.1 !! other =
      (handle limit window client post st0 now' other id' request').1.1 !! other).
Proof.
  intros He Hc Hw. split.
  - unfold handle. now rewrite (admission_full st now caller e He Hc Hw).
  - intros other st0 now' id' request' _ Heq.
    now apply handle_own_entry.
Qed.

(** An allowed call with a well-formed upstream answer: the counter
    moves, one request goes upstream, the answer is the success. *)
Lemma handle_success (st st' : gmap string RateEntry) (now : Z)
    (caller fresh_id : string) (ai_request : AIRequest) (r : Response) (data : Json)
    (part : list (string * Json)) (t : string) (pt ct : option Z) :
  admission limit window now caller st = (true, st') ->
  post (build_request client (prompt ai_request) (max_tokens ai_request)) = Return r ->
  status_code r = 200 ->
  json r = Return data ->
  first_part data = Some part ->
  dict_lookup "text" part = Some (JStr t) ->
  t <> "" ->
  usage_count data "promptTokenCount" = Some pt ->
  usage_count data "candidatesTokenCount" = Some ct ->
  handle limit window client post st now caller fresh_id ai_request =
    (st', [build_request client (prompt ai_request) (max_tokens ai_request)],
     Ok {| response_id := fresh_id; response_reply := t; response_model := model client;
           usage := {| usage_prompt_tokens := pt; usage_completion_tokens := ct |} |}).
Proof.
  intros Ha Hp Hs Hj Hf Ht Hne Hpt Hct.
  rewrite (handle_allowed st st' now caller fresh_id ai_request Ha).
  pose proof (generate_response_success client post _ _ r data part t pt ct
                Hp Hs Hj Hf Ht Hne Hpt Hct) as Hg.
  now rewrite (ai_reply_success client post fresh_id ai_request t (model client) pt ct Hg).
Qed.

End Admission.

(** * The claims on concrete upstreams *)

(** C1: for an upstream that answers 401, the handler's status is 500,
    but its detail carries the upstream's own text, [401] included. *)
Lemma unauthorized_detail_reaches_caller :
  @ai_reply sample_runtime "id-1" hello sample_client (stub (Return unauthorized)) =
    HTTPException 500 "Gemini API error: Gemini API error: Unauthorized (401): API key expired" /\
  contains "401"
    (outward_detail
       (@ai_reply sample_runtime "id-1" hello sample_client (stub (Return unauthorized)))) = true /\
  contains (text unauthorized)
    (outward_detail
       (@ai_reply sample_runtime "id-1" hello sample_client (stub (Return unauthorized)))) = true.
Proof. split; [|split]; vm_compute; reflexivity. Qed.

Lemma timeout_is_gateway_timeout_witness :
  @generate_response sample_runtime sample_client
     (stub (Raise (TimeoutException "timed out"))) "Hello" (Some 100) =
    Raise (GeminiTimeoutError "Request to Gemini API timed out") /\
  @ai_reply sample_runtime "id-1" hello sample_client
     (stub (Raise (TimeoutException "timed out"))) =
    HTTPException 504 "Request to Gemini AI timed out".
Proof.
  apply (@timeout_is_gateway_timeout sample_runtime sample_client
           (stub (Raise (TimeoutException "timed out"))) "id-1" hello "timed out").
  reflexivity.
Defined.

(** C2: an upstream that answers 403 is given 502 by the handler, where
    the table of the specification says 500. *)
Lemma forbidden_is_bad_gateway :
  @generate_response sample_runtime sample_client (stub (Return forbidden)) "Hello" (Some 100) =
    Raise (GeminiError "Gemini API error: Forbidden" (Some 403)) /\
  outward_status (@ai_reply sample_runtime "id-1" hello sample_client (stub (Return forbidden)))
    = 502 /\
  outward_status (@ai_reply sample_runtime "id-1" hello sample_client (stub (Return forbidden)))
    <> spec_rejection_status 403.
Proof. split; [|split]; vm_compute; [reflexivity | reflexivity | discriminate]. Qed.

Lemma rejection_status_mapping_witness :
  @ai_reply sample_runtime "id-1" hello sample_client (stub (Return forbidden)) =
    HTTPException 502 "Gemini API error: Gemini API error: Forbidden".
Proof.
  apply (@rejection_status_mapping sample_runtime sample_client (stub (Return forbidden))
           "id-1" hello "Gemini API error: Forbidden" 403).
  reflexivity.
Defined.

(** C3: a refused connection is wrapped as an unexpected error, and the
    handler answers 502 with the failure's text in the detail, not 500
    with the text withheld. *)
Lemma connection_failure_is_not_internal_error :
  @generate_response sample_runtime sample_client (stub (Raise connection_refused))
     "Hello" (Some 100) =
    Raise (GeminiError "Unexpected error: All connection attempts failed" None) /\
  outward_status
    (@ai_reply sample_runtime "id-1" hello sample_client (stub (Raise connection_refused)))
    <> 500 /\
  contains (exn_str connection_refused)
    (outward_detail
       (@ai_reply sample_runtime "id-1" hello sample_client (stub (Raise connection_refused))))
    = true.
Proof. split; [|split]; vm_compute; [reflexivity | discriminate | reflexivity]. Qed.

Lemma unexpected_failure_is_bad_gateway_witness :
  @generate_response sample_runtime sample_client (stub (Raise connection_refused))
     "Hello" (Some 100) =
    Raise (GeminiError "Unexpected error: All connection attempts failed" None) /\
  @ai_reply sample_runtime "id-1" hello sample_client (stub (Raise connection_refused)) =
    HTTPException 502 "Gemini API error: Unexpected error: All connection attempts failed".
Proof.
  apply (@unexpected_failure_is_bad_gateway sample_runtime sample_client
           (stub (Raise connection_refused)) "id-1" hello connection_refused).
  - reflexivity.
  - reflexivity.
  - discriminate.
Defined.

Lemma rejection_keeps_status_and_message_witness :
  @generate_response sample_runtime sample_client (stub (Return forbidden)) "Hello" (Some 100) =
    Raise (GeminiError "Gemini API error: Forbidden" (Some 403)).
Proof.
  apply (@rejection_keeps_status_and_message sample_runtime sample_client
           (stub (Return forbidden)) "Hello" (Some 100) forbidden).
  - reflexivity.
  - discriminate.
Defined.

Lemma validation_failures_are_bad_gateway_witness :
  @ai_reply sample_runtime "id-1" hello sample_client (stub (Return (decoded no_candidates_body)))
    = HTTPException 502 "Gemini API error: No candidates in response" /\
  @ai_reply sample_runtime "id-1" hello sample_client (stub (Return (decoded no_parts_body)))
    = HTTPException 502 "Gemini API error: No parts in response content" /\
  @ai_reply sample_runtime "id-1" hello sample_client (stub (Return (decoded empty_text_body)))
    = HTTPException 502 "Gemini API error: Empty reply from Gemini".
Proof.
  split; [|split].
  - eapply (@validation_failures_are_bad_gateway sample_runtime sample_client
              (stub (Return (decoded no_candidates_body))) "id-1" hello
              (decoded no_candidates_body)); reflexivity.
  - eapply (@validation_failures_are_bad_gateway sample_runtime sample_client
              (stub (Return (decoded no_parts_body))) "id-1" hello
              (decoded no_parts_body)); reflexivity.
  - eapply (@validation_failures_are_bad_gateway sample_runtime sample_client
              (stub (Return (decoded empty_text_body))) "id-1" hello
              (decoded empty_text_body)); reflexivity.
Defined.

Lemma missing_text_is_empty_reply_witness :
  _extract_reply no_text_body = Raise (GeminiError "Empty reply from Gemini" None) /\
  @generate_response sample_runtime sample_client (stub (Return (decoded no_text_body)))
     "Hello" (Some 100) = Raise (GeminiError "Empty reply from Gemini" None) /\
  _extract_reply empty_text_body = _extract_reply no_text_body.
Proof.
  destruct (@missing_text_is_empty_reply sample_runtime sample_client
              (stub (Return (decoded no_text_body))) "Hello" (Some 100)
              (decoded no_text_body)
              no_text_body [("thought", JBool true)]
              eq_refl eq_refl eq_refl eq_refl eq_refl) as (He & Hg & Hsame).
  split; [exact He|]. split; [exact Hg|].
  exact (Hsame empty_text_body [("text", JStr "")] eq_refl eq_refl).
Defined.

Lemma full_window_refuses_caller_only_witness :
  @handle sample_runtime 2%nat 60 sample_client (stub (Return (decoded success_body)))
     busy 30 "10.0.0.1" "id-3" hello = (busy, [], RateLimitExceeded).
Proof.
  apply (@full_window_refuses_caller_only sample_runtime 2%nat 60 sample_client
           (stub (Return (decoded success_body))) busy 30 "10.0.0.1" "id-3" hello
           {| count := 2; window_start := 0 |}).
  - reflexivity.
  - cbn. lia.
  - cbn. lia.
Defined.

(** The scenario of the specification: prompt [Hello], at most 100
    tokens, an upstream that replies [Hi there] with counts 3 and 4. *)
Lemma well_formed_success_is_passed_on_witness :
  valid_request hello = true /\
  @ai_reply sample_runtime "id-1" hello sample_client
     (stub (Return (decoded success_body))) =
    Ok {| response_id := "id-1"; response_reply := "Hi there";
          response_model := "gemini-2.5-flash";
          usage := {| usage_prompt_tokens := Some 3; usage_completion_tokens := Some 4 |} |}.
Proof.
  split; [reflexivity|].
  apply (@well_formed_success_is_passed_on sample_runtime sample_client
           (stub (Return (decoded success_body))) "id-1" hello
           (decoded success_body) success_body [("text", JStr "Hi there")] "Hi there"
           (Some 3) (Some 4)); try reflexivity.
  discriminate.
Defined.

(** The same scenario through the limiter, from empty counters. *)
Lemma hello_through_the_limiter :
  @handle sample_runtime 60%nat 60 sample_client (stub (Return (decoded success_body)))
     ∅ 0 "127.0.0.1" "id-1" hello =
    (<["127.0.0.1" := {| count := 1; window_start := 0 |}]> ∅,
     [build_request sample_client "Hello" (Some 100)],
     Ok {| response_id := "id-1"; response_reply := "Hi there";
           response_model := "gemini-2.5-flash";
           usage := {| usage_prompt_tokens := Some 3; usage_completion_tokens := Some 4 |} |}).
Proof.
  apply (@handle_success sample_runtime 60%nat 60 sample_client
           (stub (Return (decoded success_body))) ∅ _ 0 "127.0.0.1" "id-1" hello
           (decoded success_body) success_body [("text", JStr "Hi there")] "Hi there"
           (Some 3) (Some 4)); try reflexivity.
  discriminate.
Qed.

(** * Further properties of the client *)

Section ExtractionEdges.

Lemma bind_Raise_inv {A B : Type} (m : Result A) (k : A -> Result B) (e : exn) :
  bind m k = Raise e -> m = Raise e \/ exists a, m = Return a /\ k a = Raise e.
Proof. destruct m as [a|e0]; cbn; [eauto | intros [= ->]; now left]. Qed.

Lemma py_get_raises (v : Json) (key : string) (default : Json) (e : exn) :
  py_get v key default = Raise e -> exists m, e = AttributeError m.
Proof. destruct v; cbn; intros [= <-]; eauto. Qed.

Lemma py_first_raises (v : Json) (e : exn) :
  py_first v = Raise e ->
  (exists k, e = KeyError k) \/ (exists m, e = IndexError m) \/ (exists m, e = TypeError m).
Proof.
  destruct v as [| | | |[|c s]|[|x l]|]; cbn; intros [= <-]; eauto.
Qed.

(** What the protected block of [_extract_reply] can raise. *)
Lemma extract_reply_try_raises (data : Json) (e : exn) :
  extract_reply_try data = Raise e ->
  (exists m, e = GeminiError m None) \/ (exists m, e = AttributeError m) \/
  (exists k, e = KeyError k) \/ (exists m, e = IndexError m) \/ (exists m, e = TypeError m).
Proof.
  unfold extract_reply_try. intros Hr.
  apply bind_Raise_inv in Hr as [Hr|(candidates & _ & Hr)];
    [apply py_get_raises in Hr; tauto|].
  destruct (negb (truthy candidates)); [injection Hr as <-; eauto|].
  apply bind_Raise_inv in Hr as [Hr|(candidate & _ & Hr)];
    [apply py_first_raises in Hr; tauto|].
  apply bind_Raise_inv in Hr as [Hr|(content & _ & Hr)];
    [apply py_get_raises in Hr; tauto|].
  apply bind_Raise_inv in Hr as [Hr|(parts & _ & Hr)];
    [apply py_get_raises in Hr; tauto|].
  destruct (negb (truthy parts)); [injection Hr as <-; eauto|].
  apply bind_Raise_inv in Hr as [Hr|(part & _ & Hr)];
    [apply py_first_raises in Hr; tauto|].
  apply bind_Raise_inv in Hr as [Hr|(text & _ & Hr)];
    [apply py_get_raises in Hr; tauto|].
  destruct (negb (truthy text)); [injection Hr as <-; eauto|discriminate].
Qed.

Lemma extract_reply_raises (data : Json) (e : exn) :
  _extract_reply data = Raise e ->
  (exists m, e = GeminiError m None) \/ (exists m, e = AttributeError m).
Proof.
  unfold _extract_reply. intros Hr.
  destruct (extract_reply_try data) as [a|e'] eqn:Ht; [discriminate|].
  apply extract_reply_try_raises in Ht
    as [[m ->]|[[m ->]|[[k ->]|[[m ->]|[m ->]]]]]; injection Hr as <-; eauto.
Qed.

(** X1: whatever the body, [_extract_reply] raises nothing but a
    [GeminiError] without status or an [AttributeError]: the lookups by
    index never let a [KeyError], [IndexError] or [TypeError] through,
    while a [.get] on a value that is not a dict is not caught. *)
Theorem extract_reply_raises_only (data : Json) (e : exn) :
  _extract_reply data = Raise e ->
  ((exists m, e = GeminiError m None) \/ (exists m, e = AttributeError m)) /\
  (forall k, e <> KeyError k) /\
  (forall m, e <> IndexError m) /\
  (forall m, e <> TypeError m).
Proof.
  intros Hr. apply extract_reply_raises in Hr.
  split; [exact Hr|].
  destruct Hr as [[m ->]|[m ->]]; repeat split; discriminate.
Qed.

(** X2: when [candidates] is not empty and is neither a list nor a
    string, taking its first item fails and the failure is reported as
    [Invalid response format]: with the text [0] for a dict, whose key
    [0] is missing, and with the type's complaint for a number or
    [True]. *)
Theorem unsubscriptable_candidates_are_invalid_format (d : list (string * Json)) (v : Json) :
  dict_get d "candidates" (JList []) = v ->
  truthy v = true ->
  match v with JList _ | JStr _ => False | _ => True end ->
  _extract_reply (JDict d) =
    Raise (GeminiError
             ("Invalid response format: " ++
              match v with
              | JDict _ => "0"
              | _ => "'" ++ type_name v ++ "' object is not subscriptable"
              end) None).
Proof.
  intros Hv Ht Hk. unfold _extract_reply, extract_reply_try. cbn [py_get bind].
  rewrite Hv, Ht. cbn [negb].
  destruct v; try contradiction; try discriminate; reflexivity.
Qed.

(** X3: only the first candidate and the first part of its content are
    read: two bodies whose first candidates hold contents whose parts
    begin with the same part extract alike, whatever the other
    candidates, the other parts and the other members are. *)
Theorem only_the_first_part_is_read (d d' c c' ct ct' : list (string * Json))
    (cs cs' ps ps' : list Json) (part : Json) :
  dict_get d "candidates" (JList []) = JList (JDict c :: cs) ->
  dict_get d' "candidates" (JList []) = JList (JDict c' :: cs') ->
  dict_get c "content" (JDict []) = JDict ct ->
  dict_get c' "content" (JDict []) = JDict ct' ->
  dict_get ct "parts" (JList []) = JList (part :: ps) ->
  dict_get ct' "parts" (JList []) = JList (part :: ps') ->
  _extract_reply (JDict d) = _extract_reply (JDict d').
Proof.
  intros Hd Hd' Hc Hc' Hp Hp'. unfold _extract_reply, extract_reply_try.
  cbn [py_get bind]. rewrite Hd, Hd'. cbn [truthy negb py_first bind py_get].
  rewrite Hc, Hc'. cbn [py_get bind]. now rewrite Hp, Hp'.
Qed.

End ExtractionEdges.

Section ClientEdges.
Context `{PyRuntime}.
Variables (client : GeminiClient) (post : Transport).
Variables (p : string) (n : option Z).

Lemma generate_response_try_attribute_error (r : Response) (data : Json) (m : string) :
  post (build_request client p n) = Return r ->
  status_code r = 200 ->
  json r = Return data ->
  (_extract_reply data = Raise (AttributeError m) \/
   exists reply, _extract_reply data = Return reply /\
     (py_get data "usageMetadata" (JDict []) = Raise (AttributeError m) \/
      exists u, py_get data "usageMetadata" (JDict []) = Return u /\
        py_get u "promptTokenCount" JNull = Raise (AttributeError m))) ->
  generate_response client post p n =
    Raise (GeminiError ("Unexpected error: " ++ m) None).
Proof.
  intros Hp Hs Hj Hcase. unfold generate_response.
  rewrite (generate_response_try_success client post p n r data Hp Hs Hj).
  destruct Hcase as [->|(reply & -> & [->|(u & -> & Hu)])]; cbn [bind]; try reflexivity.
  now rewrite Hu.
Qed.

(** A body of status 200 that reaches its first part and whose usage
    metadata is absent or a dict: what [generate_response] returns. *)
Lemma generate_response_returns (r : Response) (d part : list (string * Json)) (u : Json) :
  post (build_request client p n) = Return r ->
  status_code r = 200 ->
  json r = Return (JDict d) ->
  first_part (JDict d) = Some part ->
  truthy (dict_get part "text" (JStr "")) = true ->
  dict_get d "usageMetadata" (JDict []) = u ->
  type_name u = "dict" ->
  exists fields,
    u = JDict fields /\
    generate_response client post p n =
      Return {| reply := dict_get part "text" (JStr "");
                result_model := model client;
                prompt_tokens := dict_get fields "promptTokenCount" JNull;
                completion_tokens := dict_get fields "candidatesTokenCount" JNull |}.
Proof.
  intros Hp Hs Hj Hf Ht Hu Hd. destruct u as [| | | | | |fields]; try discriminate.
  exists fields. split; [reflexivity|]. unfold generate_response.
  rewrite (generate_response_try_success client post p n r (JDict d) Hp Hs Hj).
  rewrite (extract_reply_first_part (JDict d) part Hf), Ht.
  cbn [bind py_get]. rewrite Hu. reflexivity.
Qed.

(** X4: a response with status 200 whose body decodes to something
    other than an object is not reported as a malformed response: the
    [AttributeError] of the first [.get] leaves [_extract_reply] and
    comes back as an unexpected error that names the type. *)
Theorem non_object_body_is_unexpected_error (r : Response) (data : Json) :
  post (build_request client p n) = Return r ->
  status_code r = 200 ->
  json r = Return data ->
  type_name data <> "dict" ->
  generate_response client post p n =
    Raise (GeminiError
             ("Unexpected error: '" ++ type_name data ++ "' object has no attribute 'get'")
             None).
Proof.
  intros Hp Hs Hj Hd.
  apply (generate_response_try_attribute_error r data _ Hp Hs Hj).
  left. destruct data; try reflexivity. now destruct Hd.
Qed.

(** X5: a body whose reply is fine but whose [usageMetadata] is not an
    object ([null], say) loses the reply: the call ends in an
    unexpected error. *)
Theorem non_object_usage_metadata_loses_the_reply (r : Response)
    (d part : list (string * Json)) (u : Json) :
  post (build_request client p n) = Return r ->
  status_code r = 200 ->
  json r = Return (JDict d) ->
  first_part (JDict d) = Some part ->
  truthy (dict_get part "text" (JStr "")) = true ->
  dict_lookup "usageMetadata" d = Some u ->
  type_name u <> "dict" ->
  generate_response client post p n =
    Raise (GeminiError
             ("Unexpected error: '" ++ type_name u ++ "' object has no attribute 'get'")
             None).
Proof.
  intros Hp Hs Hj Hf Ht Hu Hd.
  apply (generate_response_try_attribute_error r (JDict d) _ Hp Hs Hj).
  right. exists (dict_get part "text" (JStr "")). split.
  - now rewrite (extract_reply_first_part (JDict d) part Hf), Ht.
  - right. exists u. split.
    + cbn. unfold dict_get. now rewrite Hu.
    + destruct u; try reflexivity. now destruct Hd.
Qed.

End ClientEdges.

Section ClientOutcomes.
Context `{PyRuntime}.
Variables (client : GeminiClient) (post : Transport).
Variables (p : string) (n : option Z).

Lemma generate_response_Return_inv (result : GenerationResult) :
  generate_response client post p n = Return result ->
  result_model result = model client /\ truthy (reply result) = true.
Proof.
  unfold generate_response. intros Hg.
  destruct (generate_response_try client post p n) as [result'|e] eqn:Ha;
    [|destruct e; discriminate].
  injection Hg as ->. unfold generate_response_try in Ha.
  apply bind_Return_inv in Ha as (response & _ & Ha).
  destruct (negb (status_code response =? 200)); [discriminate|].
  apply bind_Return_inv in Ha as (data & _ & Ha).
  apply bind_Return_inv in Ha as (text & Hx & Ha).
  apply bind_Return_inv in Ha as (usage_metadata & _ & Ha).
  apply bind_Return_inv in Ha as (pt & _ & Ha).
  apply bind_Return_inv in Ha as (ct & _ & Ha).
  injection Ha as <-. cbn. split; [reflexivity|].
  exact (extract_reply_truthy data text Hx).
Qed.

Lemma generate_response_try_undecodable (r : Response) (e : exn) :
  post (build_request client p n) = Return r ->
  status_code r = 200 ->
  json r = Raise e ->
  generate_response_try client post p n = Raise e.
Proof.
  unfold generate_response_try. intros -> Hs Hj. cbn [bind].
  rewrite Hs, Hj. reflexivity.
Qed.

(** An answer with status 200 ends in a result or in a [GeminiError]
    without status, provided [response.json()] raises nothing but
    ordinary exceptions. *)
Lemma generate_response_answered_200 (r : Response) :
  post (build_request client p n) = Return r ->
  status_code r = 200 ->
  (forall e, json r = Raise e -> ordinary e = true) ->
  (exists result, generate_response client post p n = Return result) \/
  (exists m, generate_response client post p n = Raise (GeminiError m None)).
Proof.
  intros Hp Hs Ho. unfold generate_response.
  destruct (json r) as [data|e] eqn:Hj.
  - rewrite (generate_response_try_success client post p n r data Hp Hs Hj).
    destruct (_extract_reply data) as [reply|e] eqn:He; cbn [bind].
    + destruct (py_get data "usageMetadata" (JDict [])) as [u|e] eqn:Hu; cbn [bind];
        [|apply py_get_raises in Hu as [m ->]; eauto].
      destruct (py_get u "promptTokenCount" JNull) as [pt|e] eqn:Hpt; cbn [bind];
        [|apply py_get_raises in Hpt as [m ->]; eauto].
      destruct (py_get u "candidatesTokenCount" JNull) as [ct|e] eqn:Hct; cbn [bind];
        [eauto|apply py_get_raises in Hct as [m ->]; eauto].
    + apply extract_reply_raises in He as [[m ->]|[m ->]]; eauto.
  - rewrite (generate_response_try_undecodable r e Hp Hs Hj).
    specialize (Ho e eq_refl). destruct e; try discriminate; eauto.
Qed.

End ClientOutcomes.

Section HandlerOutcomes.
Context `{PyRuntime}.
Variables (client : GeminiClient) (post : Transport).
Variables (ai_request : AIRequest).

Lemma ai_reply_Return (fresh_id : string) (result : GenerationResult) :
  generate_response client post (prompt ai_request) (max_tokens ai_request) = Return result ->
  (exists r pt ct,
      validate_str (reply result) = Some r /\
      validate_optional_int (prompt_tokens result) = Some pt /\
      validate_optional_int (completion_tokens result) = Some ct /\
      ai_reply fresh_id ai_request client post =
        Ok {| response_id := fresh_id; response_reply := r;
              response_model := result_model result;
              usage := {| usage_prompt_tokens := pt; usage_completion_tokens := ct |} |}) \/
  ((validate_str (reply result) = None \/
    validate_optional_int (prompt_tokens result) = None \/
    validate_optional_int (completion_tokens result) = None) /\
   ai_reply fresh_id ai_request client post = HTTPException 500 "Internal server error").
Proof.
  unfold ai_reply. intros ->.
  destruct (validate_optional_int (prompt_tokens result)) as [pt|];
    [|right; split; [tauto|reflexivity]].
  destruct (validate_optional_int (completion_tokens result)) as [ct|];
    [|right; split; [tauto|reflexivity]].
  destruct (validate_str (reply result)) as [r|];
    [|right; split; [tauto|reflexivity]].
  left. exists r, pt, ct. repeat split.
Qed.

(** X6: whatever the upstream does, the handler answers with one of
    five statuses: 200, 500, 502, 503 or 504; the status is 200 exactly
    when the answer is a response, and the handler itself never gives
    the limiter's refusal. *)
Theorem ai_reply_status_range (fresh_id : string) :
  In (outward_status (ai_reply fresh_id ai_request client post)) [200; 500; 502; 503; 504] /\
  (outward_status (ai_reply fresh_id ai_request client post) = 200 <->
   exists response, ai_reply fresh_id ai_request client post = Ok response) /\
  ai_reply fresh_id ai_request client post <> RateLimitExceeded.
Proof.
  destruct (generate_response client post (prompt ai_request) (max_tokens ai_request))
    as [result|e] eqn:Hg.
  - destruct (ai_reply_Return fresh_id result Hg) as [(r & pt & ct & _ & _ & _ & ->)|[_ ->]];
      cbn; repeat split; try tauto; try discriminate; eauto.
    intros [response [=]].
  - assert (Hcases :
        (exists m, ai_reply fresh_id ai_request client post = HTTPException 500 m) \/
        (exists m, ai_reply fresh_id ai_request client post = HTTPException 502 m) \/
        (exists m, ai_reply fresh_id ai_request client post = HTTPException 503 m) \/
        (exists m, ai_reply fresh_id ai_request client post = HTTPException 504 m)).
    { destruct e as [m|m s|m|k|m|m|m|m];
        try solve [left; unfold ai_reply; rewrite Hg; eauto].
      - rewrite (ai_reply_GeminiError client post fresh_id ai_request m s Hg).
        destruct s as [s|]; [|eauto].
        destruct (s =? 401); [eauto|]. destruct (s =? 429); eauto.
      - rewrite (ai_reply_GeminiTimeoutError client post fresh_id ai_request m Hg).
        right. right. right. eauto. }
    destruct Hcases as [[m ->]|[[m ->]|[[m ->]|[m ->]]]]; cbn;
      (split; [tauto|]); (split; [|discriminate]);
      (split; [discriminate|intros [response [=]]]).
Qed.

(** X7: when the transport hands back a response, the status of the
    answer tells what the upstream did: it is 503 exactly when the
    upstream status was 429, it is 500 on an upstream error exactly
    when that status was 401, it is never 504, and it is 200 only when
    the upstream status was 200. *)
Theorem answered_status_tells_the_cause (fresh_id : string) (r : Response) :
  post (build_request client (prompt ai_request) (max_tokens ai_request)) = Return r ->
  (forall e, json r = Raise e -> ordinary e = true) ->
  (outward_status (ai_reply fresh_id ai_request client post) = 503 <-> status_code r = 429) /\
  (status_code r <> 200 ->
   (outward_status (ai_reply fresh_id ai_request client post) = 500 <-> status_code r = 401)) /\
  outward_status (ai_reply fresh_id ai_request client post) <> 504 /\
  (outward_status (ai_reply fresh_id ai_request client post) = 200 -> status_code r = 200).
Proof.
  intros Hp Ho. destruct (Z.eq_dec (status_code r) 200) as [Hs|Hs].
  - assert (Hst : In (outward_status (ai_reply fresh_id ai_request client post))
                     [200; 500; 502]).
    { destruct (generate_response_answered_200 client post _ _ r Hp Hs Ho)
        as [[result Hg]|[m Hg]].
      - destruct (ai_reply_Return fresh_id result Hg)
          as [(t & pt & ct & _ & _ & _ & ->)|[_ ->]]; cbn; tauto.
      - rewrite (ai_reply_GeminiError client post fresh_id ai_request m None Hg).
        cbn. tauto. }
    rewrite Hs. cbn in Hst.
    repeat split; try lia; try (intros; lia);
      destruct Hst as [<-|[<-|[<-|[]]]]; try discriminate; try lia; intros; lia.
  - rewrite (ai_reply_rejected client post fresh_id ai_request r Hp Hs). cbn.
    destruct (Z.eqb_spec (status_code r) 401) as [E1|E1];
      destruct (Z.eqb_spec (status_code r) 429) as [E2|E2];
      repeat split; intros; try lia; try discriminate.
Qed.

(** X8: the response identifier names the response and nothing else:
    a response carries the identifier it was given and the client's
    model, and with another identifier the same call gives the same
    reply, model and usage, or the very same error. *)
Theorem fresh_id_only_names_the_response (id1 id2 : string) :
  (forall response,
      ai_reply id1 ai_request client post = Ok response ->
      response_id response = id1 /\
      response_model response = model client /\
      ai_reply id2 ai_request client post =
        Ok {| response_id := id2; response_reply := response_reply response;
              response_model := response_model response; usage := usage response |}) /\
  (forall status detail,
      ai_reply id1 ai_request client post = HTTPException status detail ->
      ai_reply id2 ai_request client post = HTTPException status detail).
Proof.
  destruct (generate_response client post (prompt ai_request) (max_tokens ai_request))
    as [result|e] eqn:Hg.
  - destruct (generate_response_Return_inv client post _ _ result Hg) as [Hm _].
    destruct (ai_reply_Return id1 result Hg)
      as [(r & pt & ct & Hr & Hpt & Hct & ->)|[Hbad ->]].
    + assert (H2 : ai_reply id2 ai_request client post =
                   Ok {| response_id := id2; response_reply := r;
                         response_model := result_model result;
                         usage := {| usage_prompt_tokens := pt;
                                     usage_completion_tokens := ct |} |}).
      { unfold ai_reply. now rewrite Hg, Hpt, Hct, Hr. }
      split; [|discriminate].
      intros response [= <-]. cbn. rewrite Hm. repeat split.
      now rewrite H2, Hm.
    + split; [discriminate|]. intros status detail [= <- <-].
      destruct (ai_reply_Return id2 result Hg)
        as [(r & pt & ct & Hr & Hpt & Hct & _)|[_ ->]]; [|reflexivity].
      exfalso. destruct Hbad as [E|[E|E]]; congruence.
  - split.
    + intros response. unfold ai_reply. rewrite Hg. destruct e; discriminate.
    + intros status detail. unfold ai_reply. rewrite Hg. trivial.
Qed.

End HandlerOutcomes.

Section Composition.
Context `{PyRuntime}.

(** X9: the client's key, base address and timeout reach the answer
    through the upstream alone: two clients of the same model whose
    requests the upstream answers alike get the same answer. *)
Theorem client_reaches_answer_through_upstream_only (c1 c2 : GeminiClient)
    (post : Transport) (fresh_id : string) (ai_request : AIRequest) :
  model c1 = model c2 ->
  post (build_request c1 (prompt ai_request) (max_tokens ai_request)) =
  post (build_request c2 (prompt ai_request) (max_tokens ai_request)) ->
  ai_reply fresh_id ai_request c1 post = ai_reply fresh_id ai_request c2 post.
Proof.
  intros Hm Hp. unfold ai_reply, generate_response, generate_response_try.
  rewrite Hp. destruct c1, c2. cbn in Hm. subst. reflexivity.
Qed.

(** X10: a body whose reply is read but which the response model does
    not accept (a token count that is no integer, a text that is no
    string) is answered with 500 and the fixed detail [Internal server
    error]; nothing of the reply reaches the caller. *)
Theorem rejected_by_response_model_is_internal_error (client : GeminiClient)
    (post : Transport) (fresh_id : string) (ai_request : AIRequest) (r : Response)
    (d part usage_metadata : list (string * Json)) :
  post (build_request client (prompt ai_request) (max_tokens ai_request)) = Return r ->
  status_code r = 200 ->
  json r = Return (JDict d) ->
  first_part (JDict d) = Some part ->
  truthy (dict_get part "text" (JStr "")) = true ->
  dict_get d "usageMetadata" (JDict []) = JDict usage_metadata ->
  validate_str (dict_get part "text" (JStr "")) = None \/
  validate_optional_int (dict_get usage_metadata "promptTokenCount" JNull) = None \/
  validate_optional_int (dict_get usage_metadata "candidatesTokenCount" JNull) = None ->
  ai_reply fresh_id ai_request client post = HTTPException 500 "Internal server error".
Proof.
  intros Hp Hs Hj Hf Ht Hu Hbad.
  destruct (generate_response_returns client post _ _ r d part (JDict usage_metadata)
              Hp Hs Hj Hf Ht Hu eq_refl) as (fields & [= <-] & Hg).
  destruct (ai_reply_Return client post ai_request fresh_id _ Hg)
    as [(t & pt & ct & Hr & Hpt & Hct & _)|[_ Ha]]; [|exact Ha].
  cbn in Hr, Hpt, Hct. exfalso. destruct Hbad as [E|[E|E]]; congruence.
Qed.

(** X11: the request carries the prompt where the response carries the
    reply: an upstream that sends the first item of [contents] back as
    the content of a candidate makes the handler reply with the prompt
    of any valid request, with no usage. *)
Theorem echoed_prompt_is_the_reply (client : GeminiClient) (fresh_id : string)
    (ai_request : AIRequest) :
  valid_request ai_request = true ->
  ai_reply fresh_id ai_request client echo =
    Ok {| response_id := fresh_id; response_reply := prompt ai_request;
          response_model := model client;
          usage := {| usage_prompt_tokens := None; usage_completion_tokens := None |} |}.
Proof.
  intros Hv.
  assert (Hne : prompt ai_request <> "").
  { intros E. unfold valid_request in Hv. rewrite E in Hv. discriminate. }
  apply ai_reply_success.
  eapply (generate_response_success client echo _ _ _ _
            [("text", JStr (prompt ai_request))] (prompt ai_request) None None);
    try reflexivity. exact Hne.
Qed.

(** X12: what a valid request sends upstream: one content with one
    part whose text is the prompt, of 1 to 10000 characters, and an
    output limit that is [null] or between 1 and 4096. *)
Theorem valid_request_payload (client : GeminiClient) (ai_request : AIRequest) :
  valid_request ai_request = true ->
  exists config tokens,
    json_payload (build_request client (prompt ai_request) (max_tokens ai_request)) =
      JDict [("contents",
              JList [JDict [("parts", JList [JDict [("text", JStr (prompt ai_request))]])]]);
             ("generationConfig", JDict config)] /\
    1 <= Z.of_nat (String.length (prompt ai_request)) <= 10000 /\
    dict_lookup "maxOutputTokens" config = Some tokens /\
    (tokens = JNull \/ exists k, tokens = JInt k /\ 1 <= k <= 4096).
Proof.
  unfold valid_request. intros Hv.
  apply andb_prop in Hv as [Hv Ht]. apply andb_prop in Hv as [Hlo Hhi].
  apply Z.leb_le in Hlo, Hhi.
  eexists. exists (match max_tokens ai_request with Some k => JInt k | None => JNull end).
  split; [reflexivity|]. split; [lia|]. split; [reflexivity|].
  destruct (max_tokens ai_request) as [k|]; [|now left].
  apply andb_prop in Ht as [H1 H2]. apply Z.leb_le in H1, H2.
  right. exists k. split; [reflexivity|lia].
Qed.

End Composition.

Section ErrorDetail.

(** X13: which detail an upstream error gets: the raw body, cut to 200
    characters, when the body does not decode or when it, or its
    [error] member, is not an object; else the [message] of [error],
    or [Unknown error] when [error] or its [message] is missing. *)
Theorem error_detail_by_body (r : Response) :
  error_detail r =
    match json r with
    | Return (JDict d) =>
        match dict_lookup "error" d with
        | None => JStr "Unknown error"
        | Some (JDict error) =>
            match dict_lookup "message" error with
            | Some message => message
            | None => JStr "Unknown error"
            end
        | Some _ => JStr (substring 0 200 (text r))
        end
    | _ => JStr (substring 0 200 (text r))
    end.
Proof.
  unfold error_detail, structured_error_message.
  destruct (json r) as [[| | | | | |d]|e]; try reflexivity.
  cbn [bind py_get]. unfold dict_get at 1.
  destruct (dict_lookup "error" d) as [[| | | | | |error]|]; try reflexivity.
Qed.

End ErrorDetail.

Section Dependency.

Lemma get_gemini_client_cached (env : gmap string string) (client : GeminiClient) :
  get_gemini_client env (Some client) = (inr client, Some client).
Proof. reflexivity. Qed.

Lemma get_gemini_client_all_cached (envs : list (gmap string string))
    (client : GeminiClient) :
  get_gemini_client_all envs (Some client) = (map (fun _ => inr client) envs, Some client).
Proof.
  induction envs as [|env envs IH]; [reflexivity|].
  cbn [get_gemini_client_all map]. rewrite get_gemini_client_cached, IH. reflexivity.
Qed.

(** X14: the client is made once: as soon as one call of
    [get_gemini_client] has returned a client, every later call returns
    that same client, whatever the environment has become (a key that
    is changed or removed is not noticed); and a call returns a client
    only with that client kept in the global. *)
Theorem client_is_made_once (env : gmap string string) (g g' : option GeminiClient)
    (client : GeminiClient) (envs : list (gmap string string)) :
  get_gemini_client env g = (inr client, g') ->
  g' = Some client /\
  get_gemini_client_all envs g' = (map (fun _ => inr client) envs, Some client).
Proof.
  intros Hc.
  assert (Hg : g' = Some client).
  { unfold get_gemini_client in Hc. destruct g as [c|]; [now injection Hc as <- <-|].
    destruct (env !! "GEMINI_API_KEY") as [key|]; [|discriminate].
    destruct (String.eqb key ""); [discriminate|]. now injection Hc as <- <-. }
  split; [exact Hg|]. rewrite Hg. apply get_gemini_client_all_cached.
Qed.

(** X15: before any client exists, [get_gemini_client] returns one
    exactly when the health route reports [gemini_configured] as true,
    and otherwise raises 500 [GEMINI_API_KEY not configured] and leaves
    the global empty, so that a later call tries again; once a client
    exists the dependency succeeds whatever the health route reports. *)
Theorem health_agrees_with_cold_dependency (env : gmap string string) :
  (dict_lookup "gemini_configured" match health_check env with
                                   | JDict fields => fields
                                   | _ => []
                                   end = Some (JBool true) <->
   exists client, get_gemini_client env None = (inr client, Some client)) /\
  (dict_lookup "gemini_configured" match health_check env with
                                   | JDict fields => fields
                                   | _ => []
                                   end = Some (JBool false) <->
   get_gemini_client env None =
     (inl (HTTPException 500 "GEMINI_API_KEY not configured"), None)) /\
  (forall client, get_gemini_client env (Some client) = (inr client, Some client)).
Proof.
  unfold health_check, get_gemini_client. cbn.
  destruct (env !! "GEMINI_API_KEY") as [key|]; [destruct (String.eqb key "")|]; cbn;
    repeat split; try discriminate; eauto;
    try (intros [client [=]]); try (intros [=]).
Qed.

End Dependency.

Section Scripts.

(** X16: the first line [list_models] prints shows the first 20
    characters of the API key, so a key of at most 20 characters is
    printed whole. *)
Theorem list_models_banner_shows_key_prefix (key : string) :
  list_models_banner (Some key) =
    "Fetching models from: https://generativelanguage.googleapis.com/v1beta/models?key=" ++
    substring 0 20 key ++ "..." /\
  ((String.length key <= 20)%nat ->
   contains key (list_models_banner (Some key)) = true).
Proof.
  assert (Hb : list_models_banner (Some key) =
               "Fetching models from: https://generativelanguage.googleapis.com/v1beta/models?key=" ++
               substring 0 20 key ++ "...") by reflexivity.
  split; [exact Hb|].
  intros Hlen. rewrite Hb.
  assert (Hsub : forall k s, (String.length s <= k)%nat -> substring 0 k s = s).
  { induction k as [|k IH]; intros [|c s] Hs; cbn in *; try reflexivity; try lia.
    f_equal. apply IH. lia. }
  rewrite (Hsub 20%nat key Hlen).
  assert (Hpre : forall s t, String.prefix s (s ++ t) = true).
  { induction s as [|c s IH]; intros t.
    - now destruct t.
    - change (String c s ++ t) with (String c (s ++ t)). simpl String.prefix.
      destruct (Ascii.ascii_dec c c) as [_|Hc]; [apply IH|now destruct Hc]. }
  assert (Hcon : forall a s, contains key s = true -> contains key (a ++ s) = true).
  { induction a as [|c a IH]; intros s Hs; [exact Hs|].
    change (String c a ++ s) with (String c (a ++ s)).
    change (contains key (String c (a ++ s)))
      with (String.prefix key (String c (a ++ s)) || contains key (a ++ s)).
    rewrite (IH s Hs). apply orb_true_r. }
  apply Hcon. destruct key as [|c key]; [reflexivity|].
  change (contains (String c key) (String c key ++ "..."))
    with (String.prefix (String c key) (String c key ++ "...") ||
          contains (String c key) (key ++ "...")).
  rewrite (Hpre (String c key) "..."). reflexivity.
Qed.

End Scripts.

(** * The further properties on concrete upstreams *)

Lemma extract_reply_raises_only_witness :
  _extract_reply (JList []) = Raise (AttributeError "'list' object has no attribute 'get'") /\
  (forall k, AttributeError "'list' object has no attribute 'get'" <> KeyError k).
Proof.
  split; [reflexivity|].
  apply (extract_reply_raises_only (JList [])
           (AttributeError "'list' object has no attribute 'get'") eq_refl).
Defined.

Lemma unsubscriptable_candidates_are_invalid_format_witness :
  _extract_reply numbered_candidates_body =
    Raise (GeminiError "Invalid response format: 0" None).
Proof.
  apply (unsubscriptable_candidates_are_invalid_format
           [("candidates", JDict [("0", JDict [("content", JDict [])])])]
           (JDict [("0", JDict [("content", JDict [])])]) eq_refl eq_refl I).
Defined.

Lemma only_the_first_part_is_read_witness :
  _extract_reply two_candidates_body = _extract_reply success_body /\
  _extract_reply success_body = Return (JStr "Hi there").
Proof.
  split; [|reflexivity].
  unfold two_candidates_body, success_body.
  eapply only_the_first_part_is_read; reflexivity.
Defined.

Lemma non_object_body_is_unexpected_error_witness :
  @generate_response sample_runtime sample_client (stub (Return (decoded (JList []))))
     "Hello" (Some 100) =
    Raise (GeminiError "Unexpected error: 'list' object has no attribute 'get'" None).
Proof.
  apply (@non_object_body_is_unexpected_error sample_runtime sample_client
           (stub (Return (decoded (JList [])))) "Hello" (Some 100)
           (decoded (JList [])) (JList []) eq_refl eq_refl eq_refl).
  discriminate.
Defined.

Lemma non_object_usage_metadata_loses_the_reply_witness :
  @generate_response sample_runtime sample_client (stub (Return (decoded null_usage_body)))
     "Hello" (Some 100) =
    Raise (GeminiError "Unexpected error: 'NoneType' object has no attribute 'get'" None).
Proof.
  unfold null_usage_body.
  eapply (@non_object_usage_metadata_loses_the_reply sample_runtime sample_client
            (stub (Return (decoded null_usage_body))) "Hello" (Some 100)
            (decoded null_usage_body) _ [("text", JStr "Hi there")] JNull);
    try reflexivity.
  discriminate.
Defined.

Lemma answered_status_tells_the_cause_witness :
  outward_status (@ai_reply sample_runtime "id-1" hello sample_client (stub (Return forbidden)))
    <> 504 /\
  outward_status (@ai_reply sample_runtime "id-1" hello sample_client (stub (Return forbidden)))
    = 502.
Proof.
  split; [|reflexivity].
  apply (@answered_status_tells_the_cause sample_runtime sample_client
           (stub (Return forbidden)) hello "id-1" forbidden eq_refl).
  intros e [= <-]. reflexivity.
Defined.

Lemma client_reaches_answer_through_upstream_only_witness :
  @ai_reply sample_runtime "id-1" hello sample_client (stub (Return (decoded success_body))) =
  @ai_reply sample_runtime "id-1" hello (GeminiClient_init "another_key")
     (stub (Return (decoded success_body))).
Proof.
  apply (@client_reaches_answer_through_upstream_only sample_runtime sample_client
           (GeminiClient_init "another_key") (stub (Return (decoded success_body)))
           "id-1" hello eq_refl eq_refl).
Defined.

Lemma rejected_by_response_model_is_internal_error_witness :
  @ai_reply sample_runtime "id-1" hello sample_client (stub (Return (decoded odd_count_body)))
    = HTTPException 500 "Internal server error".
Proof.
  unfold odd_count_body.
  eapply (@rejected_by_response_model_is_internal_error sample_runtime sample_client
            (stub (Return (decoded odd_count_body))) "id-1" hello (decoded odd_count_body)
            _ [("text", JStr "Hi there")] [("promptTokenCount", JStr "three")]);
    try reflexivity.
  right. left. reflexivity.
Defined.

Lemma echoed_prompt_is_the_reply_witness :
  @ai_reply sample_runtime "id-1" hello sample_client echo =
    Ok {| response_id := "id-1"; response_reply := "Hello";
          response_model := "gemini-2.5-flash";
          usage := {| usage_prompt_tokens := None; usage_completion_tokens := None |} |}.
Proof.
  apply (@echoed_prompt_is_the_reply sample_runtime sample_client "id-1" hello eq_refl).
Defined.

Lemma valid_request_payload_witness :
  valid_request hello = true /\
  exists config tokens,
    json_payload (build_request sample_client "Hello" (Some 100)) =
      JDict [("contents", JList [JDict [("parts", JList [JDict [("text", JStr "Hello")]])]]);
             ("generationConfig", JDict config)] /\
    1 <= Z.of_nat (String.length "Hello") <= 10000 /\
    dict_lookup "maxOutputTokens" config = Some tokens /\
    (tokens = JNull \/ exists k, tokens = JInt k /\ 1 <= k <= 4096).
Proof.
  split; [reflexivity|].
  apply (valid_request_payload sample_client hello eq_refl).
Defined.

Lemma client_is_made_once_witness :
  get_gemini_client configured None =
    (inr sample_client, Some sample_client) /\
  get_gemini_client_all [∅; <["GEMINI_API_KEY" := "rotated"]> ∅] (Some sample_client) =
    ([inr sample_client; inr sample_client], Some sample_client).
Proof.
  split; [reflexivity|].
  apply (client_is_made_once configured None (Some sample_client) sample_client
           [∅; <["GEMINI_API_KEY" := "rotated"]> ∅] eq_refl).
Defined.
